(** * Excel comparator: a shallow embedding of the reconciliation engine

    The repository holds two variants of one Flask service:
    - [src/backend/app.py]: [normalize_nulls], [find_duplicates_and_unique],
      [save_with_highlights] and the [/compare] handler, over the schema
      [ID, Name, Age, City];
    - [src/backend /app.py]: [normalize_nulls], [highlight_differences] and
      its own [save_with_highlights], over a ten-column schema.

    A pandas DataFrame restricted to the schema is a list of rows, a row the
    list of its cells in schema order.  The pandas operations the code calls
    are embedded by their documented contract:
    - [pd.notnull] and [DataFrame.replace(regex=True)] act cell by cell;
      [DataFrame.where(cond, None)] puts [None] into a column of dtype
      object only: in a float64 column the not-a-number stays;
    - [pd.merge(how="inner")] keeps the order of the left keys and pairs every
      left row with every equal right row;
    - [pd.merge(how="outer", indicator=True)] takes the union of the keys,
      sorted lexicographically, and tags the rows of each key [left_only],
      [right_only] or [both]; null keys match each other;
    - iterating a Python [set] visits its elements in an order the language
      leaves open: the order is a parameter ([set_order]) of the engine. *)

From Stdlib Require Import List String Ascii ZArith Bool Arith Lia.
From Stdlib Require Import Permutation.
Import ListNotations.
Local Open Scope string_scope.

(** ** Cell values *)

(** A cell read by [pd.read_excel]: the Python [None], the float
    not-a-number, a number (by its exact value), or a [str] (a sequence of
    code points below 256). *)
Inductive value : Type :=
| VNone
| VNaN
| VNum (n : Z)
| VStr (s : string).

Definition row : Type := list value.
Definition table : Type := list row.

Definition value_eq_dec (a b : value) : {a = b} + {a <> b}.
Proof.
  decide equality; [apply Z.eq_dec | apply string_dec].
Defined.

Definition row_eq_dec : forall a b : row, {a = b} + {a <> b} :=
  list_eq_dec value_eq_dec.

Definition row_eqb (a b : row) : bool :=
  if row_eq_dec a b then true else false.

(** [pd.notnull]: false on [None] and on the float not-a-number. *)
Definition notnull (v : value) : bool :=
  match v with
  | VNone | VNaN => false
  | VNum _ | VStr _ => true
  end.

(** Python [==] and [!=] on two cells taken out of a row: the not-a-number
    differs from everything, itself included; [None == None] holds. *)
Definition py_eq (a b : value) : bool :=
  match a, b with
  | VNone, VNone => true
  | VNum x, VNum y => (x =? y)%Z
  | VStr s, VStr t => (s =? t)%string
  | _, _ => false
  end.

Definition py_ne (a b : value) : bool := negb (py_eq a b).

(** ** Normalizer *)

(** The characters the regular expression class [\s] matches on a [str]
    (code points below 256): tab to carriage return, the four separators
    0x1C-0x1F, space, next-line 0x85 and no-break space 0xA0. *)
Definition is_space (c : ascii) : bool :=
  let n := nat_of_ascii c in
  ((9 <=? n)%nat && (n <=? 13)%nat) || ((28 <=? n)%nat && (n <=? 32)%nat)
  || (n =? 133)%nat || (n =? 160)%nat.

(** [re.search(r'^\s*$', s)] succeeds: every character of [s] is white
    space (the empty string included). *)
Fixpoint matches_blank (s : string) : bool :=
  match s with
  | EmptyString => true
  | String c s' => is_space c && matches_blank s'
  end.

(** The dtype [read_excel] gives a column: object when the column holds a
    [str] (or a [None]), float64 or int64 when it holds numbers and empty
    cells only. *)
Definition holds_object (v : value) : bool :=
  match v with
  | VNone | VStr _ => true
  | VNaN | VNum _ => false
  end.

Definition object_column (df : table) (j : nat) : bool :=
  existsb (fun r => match nth_error r j with
                    | Some v => holds_object v
                    | None => false
                    end) df.

(** [df.where(pd.notnull(df), None)], on one cell of a column: in a column
    of dtype object a null becomes [None]; in a numeric column the [None]
    is coerced back to not-a-number, so the cell stays as it is. *)
Definition where_notnull (object : bool) (v : value) : value :=
  if object then (if notnull v then v else VNone) else v.

(** [.replace(r'^\s*$', None, regex=True)], on one cell: only [str] cells
    are searched. *)
Definition replace_blank (v : value) : value :=
  match v with
  | VStr s => if matches_blank s then VNone else v
  | _ => v
  end.

Definition normalize_cell (object : bool) (v : value) : value :=
  replace_blank (where_notnull object v).

(** The cells of a row from column [j] on, [object] telling the dtype of
    each column. *)
Fixpoint normalize_row (object : nat -> bool) (j : nat) (r : row) : row :=
  match r with
  | [] => []
  | v :: r' => normalize_cell (object j) v :: normalize_row object (S j) r'
  end.

Definition normalize_nulls (df : table) : table :=
  map (normalize_row (object_column df) 0) df.

(** The cells the normalizer turns into null. *)
Definition is_nan (v : value) : bool :=
  match v with VNaN => true | _ => false end.

Definition is_blank_string (v : value) : bool :=
  match v with VStr s => matches_blank s | _ => false end.

(** A table location: row [i], column [j]. *)
Definition cell_at (df : table) (i j : nat) : option value :=
  match nth_error df i with
  | Some r => nth_error r j
  | None => None
  end.

(** ** pandas merges and Python sets *)

(** The [_merge] column that [indicator=True] adds. *)
Inductive merge_indicator : Type :=
| left_only
| right_only
| both.

Definition indicator_eqb (a b : merge_indicator) : bool :=
  match a, b with
  | left_only, left_only | right_only, right_only | both, both => true
  | _, _ => false
  end.

(** [pd.merge(left, right, how="inner", on=COLUMNS)]: every column is a key,
    so a left row is paired with the right rows equal to it; the order of
    the left keys is kept. *)
Definition merge_inner (left right : table) : table :=
  flat_map (fun l => map (fun _ => l) (filter (row_eqb l) right)) left.

(** The order pandas sorts the keys of a column in: numbers by value, then
    strings by code point, nulls last. *)
Definition value_compare (a b : value) : comparison :=
  match a, b with
  | VNum x, VNum y => Z.compare x y
  | VNum _, _ => Lt
  | VStr _, VNum _ => Gt
  | VStr s, VStr t => String.compare s t
  | VStr _, _ => Lt
  | _, VNum _ => Gt
  | _, VStr _ => Gt
  | _, _ => Eq
  end.

Fixpoint row_compare (a b : row) : comparison :=
  match a, b with
  | [], [] => Eq
  | [], _ :: _ => Lt
  | _ :: _, [] => Gt
  | x :: a', y :: b' =>
      match value_compare x y with
      | Eq => row_compare a' b'
      | c => c
      end
  end.

Definition row_leb (a b : row) : bool :=
  match row_compare a b with Gt => false | _ => true end.

Fixpoint insert_key (k : row) (keys : list row) : list row :=
  match keys with
  | [] => [k]
  | h :: t => if row_leb k h then k :: keys else h :: insert_key k t
  end.

Definition sort_keys (keys : list row) : list row :=
  fold_right insert_key [] keys.

(** [pd.merge(left, right, how="outer", indicator=True, on=COLUMNS)]: one
    group per distinct key, the keys sorted; a key of one side only yields
    that side's rows, a key of both sides their product. *)
Definition merge_outer (left right : table) : list (row * merge_indicator) :=
  flat_map
    (fun k =>
       let lc := count_occ row_eq_dec left k in
       let rc := count_occ row_eq_dec right k in
       match lc, rc with
       | _, O => repeat (k, left_only) lc
       | O, _ => repeat (k, right_only) rc
       | _, _ => repeat (k, both) (lc * rc)
       end)
    (sort_keys (nodup row_eq_dec (left ++ right))).

(** [merged[merged["_merge"] == ind].drop(columns=["_merge"])]. *)
Definition select_merge (ind : merge_indicator)
    (merged : list (row * merge_indicator)) : table :=
  map fst (filter (fun p => indicator_eqb (snd p) ind) merged).

(** The order in which a [for] loop visits a Python [set], given its
    elements: some arrangement of them, which one the language does not
    say. *)
Record set_order : Type := {
  set_iter : list value -> list value;
  set_iter_perm : forall l, Permutation (set_iter l) l
}.

(** [set(series)]: the distinct elements. *)
Definition py_set (l : list value) : list value := nodup value_eq_dec l.

Definition set_mem (v : value) (s : list value) : bool :=
  if in_dec value_eq_dec v s then true else false.

(** [a.intersection(b)]. *)
Definition intersection (a b : list value) : list value :=
  filter (fun v => set_mem v b) a.

(** ** Strings *)

(** [s.split(", ")]: [cur] is the piece being read. *)
Fixpoint split_sep (s cur : string) : list string :=
  match s with
  | EmptyString => [cur]
  | String c s1 =>
      match s1 with
      | String d rest =>
          if ((c =? ",")%char && (d =? " ")%char)%bool
          then cur :: split_sep rest EmptyString
          else split_sep s1 (cur ++ String c EmptyString)
      | EmptyString => [cur ++ String c EmptyString]
      end
  end.

Definition split (s : string) : list string := split_sep s EmptyString.

(** [", ".join(changes)]. *)
Definition join (changes : list string) : string := String.concat ", " changes.

(** [cols.index(col)]. *)
Fixpoint index_of (col : string) (cols : list string) : option nat :=
  match cols with
  | [] => None
  | c :: cols' =>
      if (c =? col)%string then Some 0
      else option_map S (index_of col cols')
  end.

(** A row of the unique table: the cells of [row.to_dict()] and the entry
    stored under ['Change Summary']. *)
Record row_dict : Type := {
  cells : row;
  change_summary : string
}.

(** [ws.cell(row, column=i+1).fill = fill] on the fills of one sheet row. *)
Fixpoint fill_cell (i : nat) (fills : list bool) : list bool :=
  match fills, i with
  | [], _ => []
  | _ :: t, O => true :: t
  | h :: t, S i' => h :: fill_cell i' t
  end.

(** The [stats] object of the [/compare] response. *)
Record stats : Type := {
  benchmark_rows : nat;
  new_rows : nat;
  duplicates_count : nat;
  unique_count : nat
}.

(** ** The engine, over a schema *)

Section Engine.

(** The module constant [COLUMNS] of either variant. *)
Variable COLUMNS : list string.
Variable order : set_order.

(** [row[col]]: the cell under the column named [col]; the cells of a row
    stand in schema order. *)
Definition get (r : row) (col : string) : value :=
  match index_of col COLUMNS with
  | Some i => nth i r VNone
  | None => VNone
  end.

(** [df['ID']] *)
Definition ids (df : table) : list value := map (fun r => get r "ID") df.

(** [series.dropna()] *)
Definition dropna (l : list value) : list value := filter notnull l.

(** [df[df['ID'] == id_val]]: pandas compares the column with the scalar
    cell by cell, and a null scalar equals no cell. *)
Definition rows_with_id (df : table) (id_val : value) : table :=
  filter (fun r => notnull id_val && py_eq (get r "ID") id_val) df.

(** The inner loop of [find_duplicates_and_unique] over [COLUMNS]
    (app.py, lines 54-60): the flag [is_different] and the list
    [changes]. *)
Definition diff_columns (bench_row new_row : row) : bool * list string :=
  fold_left
    (fun (st : bool * list string) col =>
       if negb (col =? "ID")%string
       then if py_ne (get bench_row col) (get new_row col)
            then (true, (snd st ++ [col])%list)
            else st
       else st)
    COLUMNS (false, []).

(** [common_ids] (lines 41-43), in the order the loop of line 45 visits
    it. *)
Definition common_ids (df_benchmark df_new : table) : list value :=
  let benchmark_ids := py_set (dropna (ids df_benchmark)) in
  let new_ids := py_set (dropna (ids df_new)) in
  set_iter order (intersection benchmark_ids new_ids).

(** The body of the loop over [common_ids] (lines 46-65): what one
    identifier appends to [modified_rows]. *)
Definition modified_for (df_benchmark df_new : table) (id_val : value)
    : list row_dict :=
  match rows_with_id df_benchmark id_val, rows_with_id df_new id_val with
  | [bench_row], [new_row] =>
      let (is_different, changes) := diff_columns bench_row new_row in
      if is_different
      then [{| cells := new_row; change_summary := join changes |}]
      else []
  | _, _ => []
  end.

Definition modified_rows (df_benchmark df_new : table) : list row_dict :=
  flat_map (modified_for df_benchmark df_new)
           (common_ids df_benchmark df_new).

(** Lines 29-35. *)
Definition only_in_benchmark (df_benchmark df_new : table) : table :=
  select_merge left_only (merge_outer df_benchmark df_new).

Definition only_in_new (df_benchmark df_new : table) : table :=
  select_merge right_only (merge_outer df_benchmark df_new).

Definition annotate (summary : string) (r : row) : row_dict :=
  {| cells := r; change_summary := summary |}.

(** [unique_rows] (lines 68-83), from the two tables already
    normalized. *)
Definition unique_rows (df_benchmark df_new : table) : list row_dict :=
  (modified_rows df_benchmark df_new
   ++ map (annotate "New Entry") (only_in_new df_benchmark df_new)
   ++ map (annotate "Removed Entry")
          (only_in_benchmark df_benchmark df_new))%list.

(** Lines 20-87: the duplicates and the unique table. *)
Definition find_duplicates_and_unique (df_benchmark df_new : table)
    : table * list row_dict :=
  let df_benchmark := normalize_nulls df_benchmark in
  let df_new := normalize_nulls df_new in
  let duplicates := merge_inner df_benchmark df_new in
  (duplicates, unique_rows df_benchmark df_new).

(** What openpyxl reads back from the summary cell (line 114): an empty
    cell is [None]. *)
Definition summary_cell (u : row_dict) : option string :=
  if (change_summary u =? EmptyString)%string then None
  else Some (change_summary u).

(** The fills [save_with_highlights] puts on one sheet row (lines
    115-126), columns 1 to [len(COLUMNS)], none filled at first. *)
Definition highlight_row (change_cols : option string) : list bool :=
  let ws_row := repeat false (List.length COLUMNS) in
  match change_cols with
  | None => ws_row
  | Some s =>
      if (s =? EmptyString)%string then ws_row
      else if ((s =? "New Entry") || (s =? "Removed Entry"))%string
      then fold_left (fun ws col_idx => fill_cell (col_idx - 1) ws)
                     (seq 1 (List.length COLUMNS)) ws_row
      else fold_left
             (fun ws col_name =>
                match index_of col_name COLUMNS with
                | Some i => fill_cell i ws
                | None => ws
                end)
             (split s) ws_row
  end.

(** [save_with_highlights]: the fills of the data rows of the sheet (an
    empty frame is written with its header only). *)
Definition save_with_highlights (df : list row_dict) : list (list bool) :=
  match df with
  | [] => []
  | _ => map (fun u => highlight_row (summary_cell u)) df
  end.

(** The [/compare] handler once both tables are read (lines 145-165):
    the duplicates, the unique table and the statistics. *)
Definition compare_files (df_benchmark df_new : table)
    : table * list row_dict * stats :=
  let df_benchmark := normalize_nulls df_benchmark in
  let df_new := normalize_nulls df_new in
  let (duplicates, unique_entities) :=
    find_duplicates_and_unique df_benchmark df_new in
  (duplicates, unique_entities,
   {| benchmark_rows := List.length df_benchmark;
      new_rows := List.length df_new;
      duplicates_count := List.length duplicates;
      unique_count := List.length unique_entities |}).

(** *** The single-pass variant ([src/backend /app.py]) *)

(** The loop body of [highlight_differences] over [COLUMNS] (lines
    34-41). *)
Definition changes_against (benchmark_row r : row) : list string :=
  filter
    (fun col =>
       let val_new := get r col in
       let val_bench := get benchmark_row col in
       match val_new, val_bench with
       | VNone, VNone => false
       | _, _ => py_ne val_new val_bench
       end)
    COLUMNS.

(** Lines 31-44: the summary of one row of [unique_rows]. *)
Definition summary_of (df_benchmark : table) (r : row) : string :=
  match rows_with_id df_benchmark (get r "ID") with
  | benchmark_row :: _ =>
      match changes_against benchmark_row r with
      | [] => "New Entry"
      | changes => join changes
      end
  | [] => "New Entry"
  end.

(** Lines 21-47. *)
Definition highlight_differences (df_benchmark df_new : table)
    : list row_dict :=
  let df_benchmark := normalize_nulls df_benchmark in
  let df_new := normalize_nulls df_new in
  let merged := merge_outer df_benchmark df_new in
  let unique := map fst (filter (fun p => negb (indicator_eqb (snd p) both))
                                merged) in
  map (fun r => annotate (summary_of df_benchmark r) r) unique.

End Engine.

(** The schema of [src/backend/app.py]. *)
Definition COLUMNS : list string := ["ID"; "Name"; "Age"; "City"].

(** The schema of [src/backend /app.py]. *)
Definition COLUMNS_full : list string :=
  ["ID"; "Name"; "Email"; "Phone"; "Address"; "City"; "State"; "Zip";
   "Country"; "Status"].

(** Two iteration orders: insertion order, and its reverse. *)
Definition insertion_order : set_order :=
  {| set_iter := fun l => l; set_iter_perm := fun l => Permutation_refl l |}.

Definition reverse_order : set_order :=
  {| set_iter := @rev value;
     set_iter_perm := fun l => Permutation_sym (Permutation_rev l) |}.

(** ** Vocabulary of the statements *)

Definition mem_row (r : row) (t : table) : bool :=
  if in_dec row_eq_dec r t then true else false.

(** The rows of a table that are, or are not, rows of another one. *)
Definition rows_present_in (other t : table) : table :=
  filter (fun r => mem_row r other) t.

Definition rows_absent_from (other t : table) : table :=
  filter (fun r => negb (mem_row r other)) t.

(** The duplicates table in the words of the specification: the rows of
    the new table equal to some benchmark row, in new-table order. *)
Definition spec_duplicates_table (benchmark new : table) : table :=
  rows_present_in benchmark new.


(** [l] keeps the relative order its rows have in [t]: it can be read off
    [t] from left to right. *)
Fixpoint in_table_order (l t : table) : bool :=
  match l, t with
  | [], _ => true
  | _ :: _, [] => false
  | x :: l', y :: t' =>
      if row_eq_dec x y then in_table_order l' t' else in_table_order l t'
  end.

(** The rows of the unique table carrying a given summary. *)
Definition entries_with (summary : string) (u : list row_dict) : table :=
  map cells (filter (fun e => (change_summary e =? summary)%string) u).

(** The rows of the unique table that carry neither marker. *)
Definition changed_entries (u : list row_dict) : list row_dict :=
  filter (fun e => negb ((change_summary e =? "New Entry")
                         || (change_summary e =? "Removed Entry"))%string) u.

(** The field differ: the fields other than [ID] on which two rows
    differ, in schema order. *)
Definition field_changed (cols : list string) (bench_row new_row : row)
    (col : string) : bool :=
  negb (col =? "ID")%string
  && py_ne (get cols bench_row col) (get cols new_row col).

Definition field_diff (cols : list string) (bench_row new_row : row)
    : list string :=
  filter (field_changed cols bench_row new_row) cols.

(** The removed rows in the words of the specification: the benchmark
    rows whose identifier no row of the new table carries. *)
Definition spec_removed_rows (cols : list string) (benchmark new : table)
    : table :=
  filter (fun r => negb (set_mem (get cols r "ID") (ids cols new))) benchmark.

(** The changed rows in the words of the specification, in new-table
    order: a new row pairs with a benchmark row when its identifier is not
    null and is carried by exactly one row of each table; the pair is
    changed when the field differ finds a field, and the new row is then
    annotated with the joined fields. *)
Definition carries (cols : list string) (id_val : value) (r : row) : bool :=
  if value_eq_dec (get cols r "ID") id_val then true else false.

Definition spec_changed_rows (cols : list string) (benchmark new : table)
    : list row_dict :=
  flat_map
    (fun r =>
       let id_val := get cols r "ID" in
       if notnull id_val
          && (count_occ value_eq_dec (ids cols new) id_val =? 1)%nat
          && (count_occ value_eq_dec (ids cols benchmark) id_val =? 1)%nat
       then match find (carries cols id_val) benchmark with
            | Some bench_row =>
                match field_diff cols bench_row r with
                | [] => []
                | changes => [annotate (join changes) r]
                end
            | None => []
            end
       else [])
    new.

(** No cell of the table is a not-a-number. *)
Definition nan_free (t : table) : bool :=
  forallb (forallb (fun v => negb (is_nan v))) t.

(** How many rows of key [k] the outer merge tags as being of one side
    only. *)
Definition one_side_count (mine other : table) (k : row) : nat :=
  if (count_occ row_eq_dec other k =? 0)%nat
  then count_occ row_eq_dec mine k else 0.

Definition nonempty {A : Type} (l : list A) : bool :=
  match l with [] => false | _ :: _ => true end.

(** The changed rows read off the new table in its row order: a row with a
    non-null identifier contributes what the pairing loop appends for that
    identifier. *)
Definition changed_in_new_order (cols : list string)
    (df_benchmark df_new : table) : list row_dict :=
  flat_map (fun r => if notnull (get cols r "ID")
                     then modified_for cols df_benchmark df_new
                                       (get cols r "ID")
                     else [])
           df_new.

(** The concrete scenario of the specification.  Its rows have no [Age];
    over the schema of the code the [Age] cells are empty, which
    [read_excel] reports as not-a-number in a float64 column. *)
Definition scenario_benchmark : table :=
  [[VNum 1; VStr "A"; VNaN; VStr "X"]; [VNum 2; VStr "B"; VNaN; VStr "Y"]].

Definition scenario_new : table :=
  [[VNum 1; VStr "A"; VNaN; VStr "Z"]; [VNum 3; VStr "C"; VNaN; VStr "W"]].

(** The same scenario with every [Age] cell filled, the ages of the rows
    kept from one table to the other. *)
Definition scenario_aged_benchmark : table :=
  [[VNum 1; VStr "A"; VNum 30; VStr "X"];
   [VNum 2; VStr "B"; VNum 40; VStr "Y"]].

Definition scenario_aged_new : table :=
  [[VNum 1; VStr "A"; VNum 30; VStr "Z"];
   [VNum 3; VStr "C"; VNum 50; VStr "W"]].

(** The column a name of a summary designates, if it is in the schema. *)
Definition names_column (cols : list string) (j : nat) (name : string)
    : bool :=
  match index_of name cols with
  | Some i => (i =? j)%nat
  | None => false
  end.

(** The pairwise variant as a function of the two tables, to set beside
    [highlight_differences]. *)
Definition pairwise_unique (cols : list string) (order : set_order)
    (df_benchmark df_new : table) : list row_dict :=
  snd (find_duplicates_and_unique cols order df_benchmark df_new).

(** A benchmark and a new table with a changed row ([ID 1]), a removed row
    ([ID 2]), an added row ([ID 3]) and two removed rows sharing [ID 4];
    every cell is filled. *)
Definition mixed_benchmark : table :=
  [[VNum 1; VStr "A"; VNum 30; VStr "X"];
   [VNum 2; VStr "B"; VNum 40; VStr "Y"];
   [VNum 4; VStr "D"; VNum 50; VStr "V"];
   [VNum 4; VStr "E"; VNum 51; VStr "V"]].

Definition mixed_new : table :=
  [[VNum 1; VStr "A"; VNum 30; VStr "Z"];
   [VNum 3; VStr "C"; VNum 35; VStr "W"]].

(** A benchmark row and a new table over the ten-column schema, every cell
    filled. *)
Definition full_removed_row : row :=
  [VNum 2; VStr "B"; VStr "b@x.org"; VStr "555-0102"; VStr "2 Main St";
   VStr "Y"; VStr "NY"; VNum 10001; VStr "US"; VStr "active"].

Definition full_new_table : table :=
  [[VNum 3; VStr "C"; VStr "c@x.org"; VStr "555-0103"; VStr "3 Main St";
    VStr "W"; VStr "WA"; VNum 98101; VStr "US"; VStr "active"]].

(** ** The single-pass variant: its highlights *)

(** The fills the [save_with_highlights] of [src/backend /app.py] puts on
    one sheet row (lines 59-66): nothing for an empty summary or for
    ["New Entry"], otherwise the columns the summary names. *)
Definition single_pass_highlight_row (cols : list string)
    (change_cols : option string) : list bool :=
  let ws_row := repeat false (List.length cols) in
  match change_cols with
  | None => ws_row
  | Some s =>
      if (s =? EmptyString)%string then ws_row
      else if (s =? "New Entry")%string then ws_row
      else fold_left
             (fun ws col_name =>
                match index_of col_name cols with
                | Some i => fill_cell i ws
                | None => ws
                end)
             (split s) ws_row
  end.

(** The [save_with_highlights] of [src/backend /app.py] (lines 49-70): the
    fills of the data rows. *)
Definition single_pass_save_with_highlights (cols : list string)
    (df : list row_dict) : list (list bool) :=
  map (fun u => single_pass_highlight_row cols (summary_cell u)) df.

(** The string holds no [", "]. *)
Fixpoint sep_free (s : string) : bool :=
  match s with
  | EmptyString => true
  | String c s1 =>
      match s1 with
      | String d _ =>
          negb ((c =? ",")%char && (d =? " ")%char) && sep_free s1
      | EmptyString => true
      end
  end.

(** ** Normalizer: proofs *)

Local Open Scope list_scope.

Lemma replace_blank_idem (v : value) :
  replace_blank (replace_blank v) = replace_blank v.
Proof.
  destruct v as [| |n|s]; simpl; try reflexivity.
  destruct (matches_blank s) eqn:E; simpl; [reflexivity | now rewrite E].
Qed.

Lemma normalize_cell_idem (object : bool) (v : value) :
  normalize_cell object (normalize_cell object v) = normalize_cell object v.
Proof.
  unfold normalize_cell. destruct object; simpl; [|apply replace_blank_idem].
  destruct v as [| |n|s]; simpl; try reflexivity.
  destruct (matches_blank s) eqn:E; simpl; [reflexivity | now rewrite E].
Qed.

Lemma normalize_cell_object (v : value) :
  holds_object v = true -> holds_object (normalize_cell true v) = true.
Proof.
  destruct v as [| |n|s]; simpl; try discriminate; intros _;
    unfold normalize_cell; simpl; [reflexivity|].
  destruct (matches_blank s); reflexivity.
Qed.

Lemma normalize_cell_numeric (v : value) :
  holds_object v = false -> normalize_cell false v = v.
Proof.
  destruct v; simpl; try discriminate; reflexivity.
Qed.

Lemma nth_error_normalize_row (object : nat -> bool) (j : nat) (r : row)
    (k : nat) :
  nth_error (normalize_row object j r) k
  = option_map (normalize_cell (object (j + k))) (nth_error r k).
Proof.
  revert j k. induction r as [|v r IH]; intros j [|k]; simpl;
    try reflexivity.
  - now rewrite Nat.add_0_r.
  - rewrite IH. now rewrite Nat.add_succ_r.
Qed.

Lemma cell_at_normalize (df : table) (i j : nat) :
  cell_at (normalize_nulls df) i j
  = option_map (normalize_cell (object_column df j)) (cell_at df i j).
Proof.
  unfold cell_at, normalize_nulls.
  generalize (object_column df) as object. intro object.
  revert i; induction df as [|r df IH]; intros [|i]; simpl; try reflexivity.
  - apply nth_error_normalize_row.
  - apply IH.
Qed.

Lemma object_column_normalize (df : table) (j : nat) :
  object_column (normalize_nulls df) j = object_column df j.
Proof.
  unfold normalize_nulls.
  destruct (object_column df j) eqn:E.
  - pose proof E as E'. unfold object_column in E'.
    apply existsb_exists in E'. destruct E' as (r & Hr & Hc).
    unfold object_column at 1. apply existsb_exists.
    exists (normalize_row (object_column df) 0 r).
    split; [now apply in_map|].
    rewrite nth_error_normalize_row. simpl. rewrite E.
    destruct (nth_error r j) as [v|]; [|discriminate]. simpl.
    now apply normalize_cell_object.
  - unfold object_column at 1. apply not_true_is_false. intro H.
    apply existsb_exists in H. destruct H as (r' & Hr' & Hc).
    apply in_map_iff in Hr'. destruct Hr' as (r & <- & Hr).
    rewrite nth_error_normalize_row in Hc. simpl in Hc. rewrite E in Hc.
    assert (F : match nth_error r j with
                | Some v => holds_object v
                | None => false
                end = false).
    { unfold object_column in E.
      destruct (match nth_error r j with
                | Some v => holds_object v
                | None => false
                end) eqn:F; [|reflexivity].
      rewrite <- E. symmetry. apply existsb_exists. exists r. tauto. }
    destruct (nth_error r j) as [v|]; [|discriminate]. simpl in Hc.
    rewrite (normalize_cell_numeric v F), F in Hc. discriminate.
Qed.

Lemma normalize_row_again (object object' : nat -> bool) (j : nat)
    (r : row) :
  (forall k, object' k = object k) ->
  normalize_row object' j (normalize_row object j r)
  = normalize_row object j r.
Proof.
  intro H. revert j. induction r as [|v r IH]; intro j; simpl;
    [reflexivity|].
  now rewrite H, normalize_cell_idem, IH.
Qed.

Lemma normalize_nulls_again (df : table) :
  normalize_nulls (normalize_nulls df) = normalize_nulls df.
Proof.
  unfold normalize_nulls. rewrite map_map. apply map_ext.
  intro r. apply normalize_row_again. intro k.
  exact (object_column_normalize df k).
Qed.


Lemma normalize_nulls_length (df : table) :
  List.length (normalize_nulls df) = List.length df.
Proof. unfold normalize_nulls. apply length_map. Qed.

(** C10: normalizing twice is normalizing once, on every table. *)
Theorem normalize_nulls_idempotent (df : table) :
  normalize_nulls (normalize_nulls df) = normalize_nulls df.
Proof.
  unfold normalize_nulls. rewrite map_map. apply map_ext.
  intro r. apply normalize_row_again. intro k.
  exact (object_column_normalize df k).
Qed.

(** C8: what the code does with the not-a-number of an empty numeric
    cell.  In a column that holds numbers and empty cells only (float64),
    [normalize_nulls] leaves every cell as it is: the not-a-number stays a
    not-a-number and does not become null.  In a column of dtype object
    the null cells and the blank strings become [None]. *)
Theorem normalize_nulls_keeps_nan (df : table) (i j : nat) (v : value) :
  cell_at df i j = Some v ->
  (object_column df j = false ->
   cell_at (normalize_nulls df) i j = Some v) /\
  (object_column df j = true ->
   (is_nan v || is_blank_string v = true ->
    cell_at (normalize_nulls df) i j = Some VNone) /\
   (is_nan v || is_blank_string v = false ->
    cell_at (normalize_nulls df) i j = Some v)).
Proof.
  intro Hv. rewrite cell_at_normalize, Hv. simpl. split.
  - intro O. rewrite O.
    assert (F : holds_object v = false).
    { unfold object_column in O.
      destruct (holds_object v) eqn:F; [|reflexivity].
      rewrite <- O. symmetry. apply existsb_exists.
      unfold cell_at in Hv.
      destruct (nth_error df i) as [r|] eqn:Er; [|discriminate].
      exists r. split; [eapply nth_error_In, Er|]. now rewrite Hv. }
    now rewrite normalize_cell_numeric.
  - intros ->. split.
    + destruct v as [| |n|s]; simpl; try discriminate; try reflexivity.
      unfold normalize_cell; simpl. intros ->. reflexivity.
    + destruct v as [| |n|s]; simpl; try discriminate; try reflexivity.
      unfold normalize_cell; simpl. intros ->. reflexivity.
Qed.

Lemma normalize_nulls_keeps_nan_witness :
  let df := [[VNum 1; VStr "A"; VNaN; VStr "X"];
             [VNum 2; VStr "B"; VNum 30; VStr "  "]] in
  cell_at (normalize_nulls df) 0 2 = Some VNaN /\
  cell_at (normalize_nulls df) 1 3 = Some VNone.
Proof.
  intro df. split.
  - apply (proj1 (normalize_nulls_keeps_nan df 0 2 VNaN eq_refl)).
    reflexivity.
  - apply (proj1 (proj2 (normalize_nulls_keeps_nan df 1 3 (VStr "  ")
                           eq_refl) eq_refl)).
    reflexivity.
Defined.

(** ** Lists of repeated keys *)

Lemma mem_row_true (r : row) (t : table) : mem_row r t = true <-> In r t.
Proof.
  unfold mem_row. destruct (in_dec row_eq_dec r t); split; auto; discriminate.
Qed.

Lemma mem_row_false (r : row) (t : table) : mem_row r t = false <-> ~ In r t.
Proof.
  unfold mem_row. destruct (in_dec row_eq_dec r t); split; auto;
    [discriminate | contradiction].
Qed.

Lemma count_occ_flat_map_repeat (f : row -> nat) (l : table) (x : row) :
  count_occ row_eq_dec (flat_map (fun k => repeat k (f k)) l) x
  = count_occ row_eq_dec l x * f x.
Proof.
  induction l as [|k l IH]; simpl; [reflexivity|].
  rewrite count_occ_app, IH.
  destruct (row_eq_dec k x) as [->|Hne].
  - rewrite count_occ_repeat_eq by reflexivity. lia.
  - rewrite count_occ_repeat_neq by congruence. lia.
Qed.

Lemma count_occ_filter (f : row -> bool) (l : table) (x : row) :
  count_occ row_eq_dec (filter f l) x
  = if f x then count_occ row_eq_dec l x else 0.
Proof.
  induction l as [|k l IH]; simpl; [destruct (f x); reflexivity|].
  destruct (f k) eqn:Ek; simpl; destruct (row_eq_dec k x) as [->|Hne];
    rewrite IH; try rewrite Ek; reflexivity.
Qed.

Lemma count_occ_nodup (l : table) (x : row) :
  count_occ row_eq_dec (nodup row_eq_dec l) x = if mem_row x l then 1 else 0.
Proof.
  destruct (mem_row x l) eqn:E.
  - apply mem_row_true in E.
    apply NoDup_count_occ'; [apply NoDup_nodup | apply nodup_In, E].
  - apply mem_row_false in E.
    apply count_occ_not_In. rewrite nodup_In. exact E.
Qed.

Lemma insert_key_perm (k : row) (l : table) :
  Permutation (insert_key k l) (k :: l).
Proof.
  induction l as [|h t IH]; simpl; [apply Permutation_refl|].
  destruct (row_leb k h); [apply Permutation_refl|].
  eapply Permutation_trans; [apply perm_skip, IH | apply perm_swap].
Qed.

Lemma sort_keys_perm (l : table) : Permutation (sort_keys l) l.
Proof.
  induction l as [|k l IH]; simpl; [apply perm_nil|].
  eapply Permutation_trans; [apply insert_key_perm | apply perm_skip, IH].
Qed.

Lemma count_occ_keys (left right : table) (x : row) :
  count_occ row_eq_dec (sort_keys (nodup row_eq_dec (left ++ right))) x
  = if mem_row x (left ++ right) then 1 else 0.
Proof.
  rewrite <- count_occ_nodup.
  apply Permutation_count_occ, sort_keys_perm.
Qed.

(** ** The inner merge *)

Lemma matches_repeat (l : row) (right : table) :
  map (fun _ : row => l) (filter (row_eqb l) right)
  = repeat l (count_occ row_eq_dec right l).
Proof.
  induction right as [|r right IH]; simpl; [reflexivity|].
  unfold row_eqb at 1.
  destruct (row_eq_dec l r) as [->|Hne]; simpl.
  - destruct (row_eq_dec r r) as [_|C]; [|contradiction].
    simpl. now rewrite IH.
  - destruct (row_eq_dec r l) as [C|_]; [congruence|]. exact IH.
Qed.

Lemma merge_inner_repeat (left right : table) :
  merge_inner left right
  = flat_map (fun l => repeat l (count_occ row_eq_dec right l)) left.
Proof.
  unfold merge_inner. apply flat_map_ext. intro l. apply matches_repeat.
Qed.

Lemma count_occ_merge_inner (left right : table) (x : row) :
  count_occ row_eq_dec (merge_inner left right) x
  = count_occ row_eq_dec left x * count_occ row_eq_dec right x.
Proof.
  rewrite merge_inner_repeat. apply count_occ_flat_map_repeat.
Qed.

Lemma in_merge_inner (left right : table) (x : row) :
  In x (merge_inner left right) <-> In x left /\ In x right.
Proof.
  rewrite !(count_occ_In row_eq_dec), count_occ_merge_inner.
  nia.
Qed.

Lemma merge_inner_nodup_left (left right : table) :
  NoDup left ->
  Permutation (merge_inner left right) (rows_present_in left right).
Proof.
  intro Hnd.
  apply (Permutation_count_occ row_eq_dec). intro x.
  unfold rows_present_in.
  rewrite count_occ_merge_inner, count_occ_filter.
  destruct (mem_row x left) eqn:E.
  - apply mem_row_true in E.
    rewrite (proj1 (NoDup_count_occ' row_eq_dec left) Hnd x E). lia.
  - apply mem_row_false in E.
    rewrite (proj1 (count_occ_not_In row_eq_dec left x) E). lia.
Qed.


Lemma merge_inner_swap (left right : table) :
  Permutation (merge_inner left right) (merge_inner right left).
Proof.
  apply (Permutation_count_occ row_eq_dec). intro x.
  rewrite !count_occ_merge_inner. apply Nat.mul_comm.
Qed.

(** ** The outer merge *)

Lemma select_merge_flat_map (ind : merge_indicator)
    (g : row -> list (row * merge_indicator)) (keys : table) :
  select_merge ind (flat_map g keys)
  = flat_map (fun k => select_merge ind (g k)) keys.
Proof.
  unfold select_merge.
  induction keys as [|k keys IH]; simpl; [reflexivity|].
  now rewrite filter_app, map_app, IH.
Qed.

Lemma select_merge_repeat (ind tag : merge_indicator) (k : row) (n : nat) :
  select_merge ind (repeat (k, tag) n)
  = if indicator_eqb tag ind then repeat k n else [].
Proof.
  unfold select_merge.
  induction n as [|n IH]; simpl; [destruct (indicator_eqb tag ind); reflexivity|].
  destruct (indicator_eqb tag ind) eqn:E; simpl; rewrite IH; reflexivity.
Qed.

Lemma only_in_new_repeat (df_benchmark df_new : table) :
  only_in_new df_benchmark df_new
  = flat_map (fun k => repeat k (one_side_count df_new df_benchmark k))
             (sort_keys (nodup row_eq_dec (df_benchmark ++ df_new))).
Proof.
  unfold only_in_new, merge_outer.
  rewrite select_merge_flat_map.
  apply flat_map_ext. intro k. unfold one_side_count.
  destruct (count_occ row_eq_dec df_benchmark k) as [|lc];
    destruct (count_occ row_eq_dec df_new k) as [|rc];
    rewrite select_merge_repeat; reflexivity.
Qed.

Lemma only_in_benchmark_repeat (df_benchmark df_new : table) :
  only_in_benchmark df_benchmark df_new
  = flat_map (fun k => repeat k (one_side_count df_benchmark df_new k))
             (sort_keys (nodup row_eq_dec (df_benchmark ++ df_new))).
Proof.
  unfold only_in_benchmark, merge_outer.
  rewrite select_merge_flat_map.
  apply flat_map_ext. intro k. unfold one_side_count.
  destruct (count_occ row_eq_dec df_benchmark k) as [|lc];
    destruct (count_occ row_eq_dec df_new k) as [|rc];
    rewrite select_merge_repeat; reflexivity.
Qed.

Lemma count_occ_zero_mem (t : table) (x : row) :
  (count_occ row_eq_dec t x =? 0)%nat = negb (mem_row x t).
Proof.
  destruct (mem_row x t) eqn:E; simpl.
  - apply mem_row_true in E. apply (count_occ_In row_eq_dec) in E.
    apply Nat.eqb_neq. lia.
  - apply mem_row_false in E. apply (count_occ_not_In row_eq_dec) in E.
    now rewrite E.
Qed.

Lemma count_occ_only_in_new (df_benchmark df_new : table) (x : row) :
  count_occ row_eq_dec (only_in_new df_benchmark df_new) x
  = if mem_row x df_benchmark then 0 else count_occ row_eq_dec df_new x.
Proof.
  rewrite only_in_new_repeat, count_occ_flat_map_repeat, count_occ_keys.
  unfold one_side_count. rewrite count_occ_zero_mem.
  destruct (mem_row x df_benchmark) eqn:Eb; simpl; [lia|].
  destruct (mem_row x (df_benchmark ++ df_new)) eqn:E; [lia|].
  apply mem_row_false in E.
  rewrite (proj1 (count_occ_not_In row_eq_dec df_new x)); [reflexivity|].
  intro H. apply E, in_or_app. right. exact H.
Qed.

Lemma count_occ_only_in_benchmark (df_benchmark df_new : table) (x : row) :
  count_occ row_eq_dec (only_in_benchmark df_benchmark df_new) x
  = if mem_row x df_new then 0 else count_occ row_eq_dec df_benchmark x.
Proof.
  rewrite only_in_benchmark_repeat, count_occ_flat_map_repeat, count_occ_keys.
  unfold one_side_count. rewrite count_occ_zero_mem.
  destruct (mem_row x df_new) eqn:Eb; simpl; [lia|].
  destruct (mem_row x (df_benchmark ++ df_new)) eqn:E; [lia|].
  apply mem_row_false in E.
  rewrite (proj1 (count_occ_not_In row_eq_dec df_benchmark x)); [reflexivity|].
  intro H. apply E, in_or_app. left. exact H.
Qed.

Lemma only_in_new_perm (df_benchmark df_new : table) :
  Permutation (only_in_new df_benchmark df_new)
              (rows_absent_from df_benchmark df_new).
Proof.
  apply (Permutation_count_occ row_eq_dec). intro x.
  unfold rows_absent_from.
  rewrite count_occ_only_in_new, count_occ_filter.
  destruct (mem_row x df_benchmark); reflexivity.
Qed.

Lemma only_in_benchmark_perm (df_benchmark df_new : table) :
  Permutation (only_in_benchmark df_benchmark df_new)
              (rows_absent_from df_new df_benchmark).
Proof.
  apply (Permutation_count_occ row_eq_dec). intro x.
  unfold rows_absent_from.
  rewrite count_occ_only_in_benchmark, count_occ_filter.
  destruct (mem_row x df_new); reflexivity.
Qed.

Lemma in_rows_absent_from (other t : table) (x : row) :
  In x (rows_absent_from other t) <-> In x t /\ ~ In x other.
Proof.
  unfold rows_absent_from. rewrite filter_In, negb_true_iff, mem_row_false.
  reflexivity.
Qed.

Lemma in_only_in_new (df_benchmark df_new : table) (x : row) :
  In x (only_in_new df_benchmark df_new)
  <-> In x df_new /\ ~ In x df_benchmark.
Proof.
  rewrite <- in_rows_absent_from.
  split; apply Permutation_in;
    [|apply Permutation_sym]; apply only_in_new_perm.
Qed.

Lemma in_only_in_benchmark (df_benchmark df_new : table) (x : row) :
  In x (only_in_benchmark df_benchmark df_new)
  <-> In x df_benchmark /\ ~ In x df_new.
Proof.
  rewrite <- in_rows_absent_from.
  split; apply Permutation_in;
    [|apply Permutation_sym]; apply only_in_benchmark_perm.
Qed.


(** ** The pairing loop *)

Lemma py_eq_eq (a b : value) : py_eq a b = true -> a = b.
Proof.
  destruct a, b; simpl; try discriminate; try reflexivity.
  - intro H. apply Z.eqb_eq in H. congruence.
  - intro H. apply String.eqb_eq in H. congruence.
Qed.

Lemma py_eq_refl (a : value) : a <> VNaN -> py_eq a a = true.
Proof.
  destruct a; simpl; try reflexivity.
  - congruence.
  - intros _. apply Z.eqb_refl.
  - intros _. apply String.eqb_refl.
Qed.

Section Pairing.

Variable cols : list string.
Variable order : set_order.

Lemma diff_columns_fold (bench_row new_row : row) (l : list string)
    (st : bool * list string) :
  fold_left
    (fun (st : bool * list string) col =>
       if negb (col =? "ID")%string
       then if py_ne (get cols bench_row col) (get cols new_row col)
            then (true, snd st ++ [col])
            else st
       else st) l st
  = (fst st || nonempty (filter (field_changed cols bench_row new_row) l),
     snd st ++ filter (field_changed cols bench_row new_row) l).
Proof.
  revert st. induction l as [|c l IH]; intros [b acc]; simpl.
  - now rewrite orb_false_r, app_nil_r.
  - rewrite IH. unfold field_changed.
    destruct (negb (c =? "ID")%string); simpl; [|reflexivity].
    destruct (py_ne (get cols bench_row c) (get cols new_row c)); simpl;
      [|reflexivity].
    rewrite orb_true_r, <- app_assoc. reflexivity.
Qed.

Lemma diff_columns_field_diff (bench_row new_row : row) :
  diff_columns cols bench_row new_row
  = (nonempty (field_diff cols bench_row new_row),
     field_diff cols bench_row new_row).
Proof.
  unfold diff_columns. rewrite diff_columns_fold. reflexivity.
Qed.

Lemma in_rows_with_id (df : table) (id_val : value) (r : row) :
  In r (rows_with_id cols df id_val)
  <-> In r df /\ get cols r "ID" = id_val /\ notnull id_val = true.
Proof.
  unfold rows_with_id. rewrite filter_In, andb_true_iff.
  split; intros [H1 H2]; split; auto.
  - destruct H2 as [H2 H3]. split; [apply py_eq_eq, H3 | exact H2].
  - destruct H2 as [<- H2]. split; [exact H2|].
    apply py_eq_refl. intro C. rewrite C in H2. discriminate.
Qed.

Lemma in_modified_for (df_benchmark df_new : table) (id_val : value)
    (e : row_dict) :
  In e (modified_for cols df_benchmark df_new id_val) <->
  exists bench_row,
    rows_with_id cols df_benchmark id_val = [bench_row] /\
    rows_with_id cols df_new id_val = [cells e] /\
    field_diff cols bench_row (cells e) <> [] /\
    change_summary e = join (field_diff cols bench_row (cells e)).
Proof.
  unfold modified_for.
  destruct (rows_with_id cols df_benchmark id_val) as [|br [|? ?]];
    try (split; [contradiction | intros (x & H & _); discriminate]).
  destruct (rows_with_id cols df_new id_val) as [|nr [|? ?]];
    try (split; [contradiction | intros (x & _ & H & _); discriminate]).
  rewrite diff_columns_field_diff.
  destruct (field_diff cols br nr) as [|c fd] eqn:E; simpl.
  - split; [contradiction|].
    intros (x & Hx & Hn & Hd & _).
    injection Hx as <-. injection Hn as Hn. rewrite <- Hn, E in Hd.
    now apply Hd.
  - split.
    + intros [<-|[]]. exists br. simpl. rewrite E.
      repeat split. discriminate.
    + intros (x & Hx & Hn & Hd & Hs).
      injection Hx as <-. injection Hn as Hn. left.
      destruct e as [ce se]; simpl in *. subst ce. rewrite E in Hs.
      now subst se.
Qed.

Lemma in_common_ids (df_benchmark df_new : table) (id_val : value) :
  In id_val (common_ids cols order df_benchmark df_new) <->
  notnull id_val = true /\
  In id_val (ids cols df_benchmark) /\ In id_val (ids cols df_new).
Proof.
  unfold common_ids, intersection, py_set, set_mem, dropna.
  split.
  - intro H. apply (Permutation_in _ (set_iter_perm order _)) in H.
    apply filter_In in H. destruct H as [H1 H2].
    apply nodup_In, filter_In in H1.
    destruct (in_dec value_eq_dec id_val _) as [H3|]; [|discriminate].
    apply nodup_In, filter_In in H3. tauto.
  - intros (Hn & Hb & Hw).
    apply (Permutation_in _ (Permutation_sym (set_iter_perm order _))).
    apply filter_In. split.
    + apply nodup_In, filter_In. tauto.
    + destruct (in_dec value_eq_dec id_val _) as [|H3]; [reflexivity|].
      exfalso. apply H3, nodup_In, filter_In. tauto.
Qed.

Lemma common_ids_nodup (df_benchmark df_new : table) :
  NoDup (common_ids cols order df_benchmark df_new).
Proof.
  unfold common_ids.
  eapply Permutation_NoDup;
    [apply Permutation_sym, set_iter_perm|].
  apply NoDup_filter, NoDup_nodup.
Qed.

Lemma in_ids (df : table) (id_val : value) :
  In id_val (ids cols df) <-> exists r, In r df /\ get cols r "ID" = id_val.
Proof.
  unfold ids. rewrite in_map_iff. split; intros (r & H1 & H2);
    exists r; tauto.
Qed.

(** What the loop appends: the new row of an identifier that is not null
    and selects exactly one row in each table, when some field other
    than [ID] differs. *)
Lemma in_modified_rows (df_benchmark df_new : table) (e : row_dict) :
  In e (modified_rows cols order df_benchmark df_new) <->
  notnull (get cols (cells e) "ID") = true /\
  exists bench_row,
    rows_with_id cols df_benchmark (get cols (cells e) "ID") = [bench_row] /\
    rows_with_id cols df_new (get cols (cells e) "ID") = [cells e] /\
    field_diff cols bench_row (cells e) <> [] /\
    change_summary e = join (field_diff cols bench_row (cells e)).
Proof.
  unfold modified_rows. rewrite in_flat_map. split.
  - intros (id_val & Hc & He).
    apply in_common_ids in Hc. destruct Hc as (Hn & _ & _).
    apply in_modified_for in He. destruct He as (br & Hb & Hw & Hd & Hs).
    assert (Hid : get cols (cells e) "ID" = id_val).
    { assert (Hin : In (cells e) (rows_with_id cols df_new id_val))
        by (rewrite Hw; left; reflexivity).
      apply in_rows_with_id in Hin. tauto. }
    rewrite Hid. split; [exact Hn|]. exists br. tauto.
  - intros (Hn & br & Hb & Hw & Hd & Hs).
    exists (get cols (cells e) "ID"). split.
    + apply in_common_ids. split; [exact Hn|]. split; apply in_ids.
      * exists br.
        assert (Hin : In br (rows_with_id cols df_benchmark
                               (get cols (cells e) "ID")))
          by (rewrite Hb; left; reflexivity).
        apply in_rows_with_id in Hin. tauto.
      * exists (cells e).
        assert (Hin : In (cells e) (rows_with_id cols df_new
                                      (get cols (cells e) "ID")))
          by (rewrite Hw; left; reflexivity).
        apply in_rows_with_id in Hin. tauto.
    + apply in_modified_for. exists br. tauto.
Qed.

End Pairing.

(** ** The concrete scenario *)

Lemma set_iter_singleton (order : set_order) (v : value) :
  set_iter order [v] = [v].
Proof.
  apply Permutation_length_1_inv, Permutation_sym, set_iter_perm.
Qed.

(** C1: what the code returns on the scenario of the specification, for
    every iteration order of the identifier set: no duplicate, but five
    unique rows, not three, and a count of five in the statistics.  The
    changed row [ID 1] is listed with its summary, again as a new entry,
    and its benchmark version as a removed entry.  With the [Age] cells
    empty the not-a-number stays in the table and differs from itself, so
    the summary is [Age, City]; with the [Age] cells filled it is
    [City]. *)
Theorem scenario_output (order : set_order) :
  compare_files COLUMNS order scenario_benchmark scenario_new
  = ([],
     [ {| cells := [VNum 1; VStr "A"; VNaN; VStr "Z"];
          change_summary := "Age, City" |};
       {| cells := [VNum 1; VStr "A"; VNaN; VStr "Z"];
          change_summary := "New Entry" |};
       {| cells := [VNum 3; VStr "C"; VNaN; VStr "W"];
          change_summary := "New Entry" |};
       {| cells := [VNum 1; VStr "A"; VNaN; VStr "X"];
          change_summary := "Removed Entry" |};
       {| cells := [VNum 2; VStr "B"; VNaN; VStr "Y"];
          change_summary := "Removed Entry" |} ],
     {| benchmark_rows := 2; new_rows := 2;
        duplicates_count := 0; unique_count := 5 |})
  /\
  compare_files COLUMNS order scenario_aged_benchmark scenario_aged_new
  = ([],
     [ {| cells := [VNum 1; VStr "A"; VNum 30; VStr "Z"];
          change_summary := "City" |};
       {| cells := [VNum 1; VStr "A"; VNum 30; VStr "Z"];
          change_summary := "New Entry" |};
       {| cells := [VNum 3; VStr "C"; VNum 50; VStr "W"];
          change_summary := "New Entry" |};
       {| cells := [VNum 1; VStr "A"; VNum 30; VStr "X"];
          change_summary := "Removed Entry" |};
       {| cells := [VNum 2; VStr "B"; VNum 40; VStr "Y"];
          change_summary := "Removed Entry" |} ],
     {| benchmark_rows := 2; new_rows := 2;
        duplicates_count := 0; unique_count := 5 |}).
Proof.
  split.
  - unfold compare_files, find_duplicates_and_unique, unique_rows,
      modified_rows, common_ids.
    set (s := intersection _ _). vm_compute in s. subst s.
    rewrite set_iter_singleton. reflexivity.
  - unfold compare_files, find_duplicates_and_unique, unique_rows,
      modified_rows, common_ids.
    set (s := intersection _ _). vm_compute in s. subst s.
    rewrite set_iter_singleton. reflexivity.
Qed.

(** ** Tables without a not-a-number *)

Lemma nan_free_get (cols : list string) (t : table) (r : row) (col : string) :
  nan_free t = true -> In r t -> get cols r col <> VNaN.
Proof.
  unfold nan_free, get. intros Ht Hr.
  rewrite forallb_forall in Ht. specialize (Ht r Hr).
  rewrite forallb_forall in Ht.
  destruct (index_of col cols) as [i|]; [|discriminate].
  destruct (nth_in_or_default i r VNone) as [H|H].
  - specialize (Ht _ H). intro C. rewrite C in Ht. discriminate.
  - rewrite H. discriminate.
Qed.

Lemma field_diff_same (cols : list string) (r : row) :
  (forall col, get cols r col <> VNaN) -> field_diff cols r r = [].
Proof.
  intro H. unfold field_diff, field_changed.
  generalize cols at 3. intro l.
  induction l as [|c l IH]; simpl; [reflexivity|].
  unfold py_ne at 1. rewrite (py_eq_refl _ (H c)), andb_false_r. apply IH.
Qed.

(** ** A table against itself *)

Lemma no_member_nil {A : Type} (l : list A) :
  (forall x, ~ In x l) -> l = [].
Proof.
  destruct l as [|a l]; [reflexivity|].
  intro H. exfalso. apply (H a). left. reflexivity.
Qed.






(** ** The duplicates table *)

(** C4, as stated, fails in two ways.  The inner merge keeps the order of
    the benchmark, not of the new table; and a benchmark that repeats a row
    puts it in the duplicates table more often than the new table holds
    it. *)
Lemma duplicates_table_counterexample :
  (let a := [VNum 1; VStr "A"; VNum 30; VStr "X"] in
   let b := [VNum 2; VStr "B"; VNum 40; VStr "Y"] in
   let d := fst (find_duplicates_and_unique COLUMNS insertion_order
                   [a; b] [b; a]) in
   d = [a; b] /\ spec_duplicates_table [a; b] [b; a] = [b; a] /\
   in_table_order d [b; a] = false)
  /\
  (let a := [VNum 1; VStr "A"; VNum 30; VStr "X"] in
   let d := fst (find_duplicates_and_unique COLUMNS insertion_order
                   [a; a] [a]) in
   count_occ row_eq_dec d a = 2 /\ count_occ row_eq_dec [a] a = 1).
Proof. repeat split. Qed.

(** C4, amended: a row is in the duplicates table if and only if it is a
    row of the normalized new table all of whose fields equal those of some
    normalized benchmark row; its multiplicity there is the product of its
    multiplicities in the two tables; the table follows the order of the
    benchmark, each benchmark row repeated once per equal new row; its rows
    are rows of the input tables, without a summary. *)
Theorem duplicates_table (cols : list string) (order : set_order)
    (df_benchmark df_new : table) :
  let b := normalize_nulls df_benchmark in
  let n := normalize_nulls df_new in
  let d := fst (find_duplicates_and_unique cols order df_benchmark df_new) in
  (forall r, In r d <-> In r n /\ In r b) /\
  (forall r, count_occ row_eq_dec d r
             = count_occ row_eq_dec b r * count_occ row_eq_dec n r) /\
  d = flat_map (fun l => repeat l (count_occ row_eq_dec n l)) b /\
  (forall r1 r2, In r1 b -> In r2 n ->
     get cols r1 "ID" = get cols r2 "ID" -> r1 <> r2 ->
     NoDup (ids cols b) -> ~ In r2 d).
Proof.
  unfold find_duplicates_and_unique; simpl.
  split; [intro r; rewrite in_merge_inner; tauto|].
  split; [intro r; apply count_occ_merge_inner|].
  split; [apply merge_inner_repeat|].
  intros r1 r2 H1 H2 Hid Hne Hnd Hd.
  apply in_merge_inner in Hd. destruct Hd as [Hb _].
  apply Hne.
  clear H2. revert H1 Hb Hid Hnd. unfold ids.
  induction (normalize_nulls df_benchmark) as [|x l IH]; simpl;
    [contradiction|].
  intros H1 Hb Hid Hnd. inversion Hnd as [|? ? Hx Hl]; subst.
  destruct H1 as [->|H1], Hb as [->|Hb]; auto.
  - exfalso. apply Hx. rewrite Hid. apply in_map_iff. exists r2. tauto.
  - exfalso. apply Hx. rewrite <- Hid. apply in_map_iff. exists r1. tauto.
Qed.

Lemma duplicates_table_witness :
  let a := [VNum 1; VStr "A"; VNum 30; VStr "X"] in
  let a' := [VNum 1; VStr "A"; VNum 31; VStr "X"] in
  ~ In a' (fst (find_duplicates_and_unique COLUMNS insertion_order [a] [a'])).
Proof.
  intros a a'.
  apply (proj2 (proj2 (proj2
           (duplicates_table COLUMNS insertion_order [a] [a']))) a a').
  - simpl. tauto.
  - simpl. tauto.
  - reflexivity.
  - discriminate.
  - vm_compute. repeat constructor. simpl. tauto.
Defined.

(** ** Summaries over the schema [ID, Name, Age, City] *)

Lemma filter_none {A : Type} (f : A -> bool) (l : list A) :
  (forall x, In x l -> f x = false) -> filter f l = [].
Proof.
  induction l as [|a l IH]; simpl; intro H; [reflexivity|].
  rewrite (H a) by (left; reflexivity).
  apply IH. intros x Hx. apply H. right. exact Hx.
Qed.

Lemma filter_all {A : Type} (f : A -> bool) (l : list A) :
  (forall x, In x l -> f x = true) -> filter f l = l.
Proof.
  induction l as [|a l IH]; simpl; intro H; [reflexivity|].
  rewrite (H a) by (left; reflexivity).
  f_equal. apply IH. intros x Hx. apply H. right. exact Hx.
Qed.

Lemma field_diff_COLUMNS (bench_row new_row : row) :
  field_diff COLUMNS bench_row new_row
  = filter (fun col => py_ne (get COLUMNS bench_row col)
                             (get COLUMNS new_row col))
           ["Name"; "Age"; "City"].
Proof. reflexivity. Qed.

(** The summaries of changed rows: a non-empty selection of [Name], [Age],
    [City], joined; none is a marker or empty, and splitting one gives the
    selection back. *)
Lemma joined_summary (p : string -> bool) :
  let changes := filter p ["Name"; "Age"; "City"] in
  changes <> [] ->
  join changes <> "New Entry" /\ join changes <> "Removed Entry" /\
  join changes <> EmptyString /\ split (join changes) = changes /\
  ~ In "ID" changes.
Proof.
  simpl.
  destruct (p "Name"), (p "Age"), (p "City"); intro H;
    try (exfalso; apply H; reflexivity);
    (split; [discriminate|]); (split; [discriminate|]);
    (split; [discriminate|]); (split; [reflexivity|]);
    simpl; intuition discriminate.
Qed.

Lemma modified_summary (order : set_order) (b n : table) (e : row_dict) :
  In e (modified_rows COLUMNS order b n) ->
  change_summary e <> "New Entry" /\ change_summary e <> "Removed Entry" /\
  change_summary e <> EmptyString /\
  exists bench_row,
    In bench_row b /\
    get COLUMNS bench_row "ID" = get COLUMNS (cells e) "ID" /\
    change_summary e = join (field_diff COLUMNS bench_row (cells e)) /\
    split (change_summary e) = field_diff COLUMNS bench_row (cells e) /\
    ~ In "ID" (field_diff COLUMNS bench_row (cells e)).
Proof.
  intro He. apply in_modified_rows in He.
  destruct He as (_ & br & Hb & _ & Hd & Hs).
  rewrite field_diff_COLUMNS in Hd, Hs.
  destruct (joined_summary _ Hd) as (H1 & H2 & H3 & H4 & H5).
  rewrite Hs. repeat (split; [assumption|]).
  exists br.
  assert (Hin : In br (rows_with_id COLUMNS b (get COLUMNS (cells e) "ID")))
    by (rewrite Hb; left; reflexivity).
  apply in_rows_with_id in Hin.
  rewrite field_diff_COLUMNS. tauto.
Qed.

Lemma entries_of_unique_rows (order : set_order) (b n : table) :
  let u := unique_rows COLUMNS order b n in
  changed_entries u = modified_rows COLUMNS order b n /\
  entries_with "New Entry" u = only_in_new b n /\
  entries_with "Removed Entry" u = only_in_benchmark b n.
Proof.
  unfold unique_rows, changed_entries, entries_with; simpl.
  rewrite !filter_app, !map_app.
  split; [|split].
  - rewrite (filter_all _ (modified_rows COLUMNS order b n)),
      (filter_none _ (map (annotate "New Entry") _)),
      (filter_none _ (map (annotate "Removed Entry") _)).
    + now rewrite !app_nil_r.
    + intros x Hx. apply in_map_iff in Hx. destruct Hx as (r & <- & _).
      reflexivity.
    + intros x Hx. apply in_map_iff in Hx. destruct Hx as (r & <- & _).
      reflexivity.
    + intros x Hx. apply modified_summary in Hx.
      destruct Hx as (H1 & H2 & _).
      apply String.eqb_neq in H1, H2. now rewrite H1, H2.
  - rewrite (filter_none _ (modified_rows COLUMNS order b n)),
      (filter_all _ (map (annotate "New Entry") _)),
      (filter_none _ (map (annotate "Removed Entry") _)).
    + simpl. rewrite app_nil_r, map_map. apply map_id.
    + intros x Hx. apply in_map_iff in Hx. destruct Hx as (r & <- & _).
      reflexivity.
    + intros x Hx. apply in_map_iff in Hx. destruct Hx as (r & <- & _).
      reflexivity.
    + intros x Hx. apply modified_summary in Hx.
      destruct Hx as (H1 & _). now apply String.eqb_neq.
  - rewrite (filter_none _ (modified_rows COLUMNS order b n)),
      (filter_none _ (map (annotate "New Entry") _)),
      (filter_all _ (map (annotate "Removed Entry") _)).
    + simpl. rewrite map_map. apply map_id.
    + intros x Hx. apply in_map_iff in Hx. destruct Hx as (r & <- & _).
      reflexivity.
    + intros x Hx. apply in_map_iff in Hx. destruct Hx as (r & <- & _).
      reflexivity.
    + intros x Hx. apply modified_summary in Hx.
      destruct Hx as (_ & H2 & _). now apply String.eqb_neq.
Qed.

(** ** The changed rows, up to the iteration order *)

Lemma flat_map_filter_nonempty {A B : Type} (h : A -> list B) (l : list A) :
  flat_map h l = flat_map h (filter (fun x => nonempty (h x)) l).
Proof.
  induction l as [|a l IH]; simpl; [reflexivity|].
  destruct (h a) as [|y ys] eqn:E; simpl; [exact IH|].
  rewrite E, IH. reflexivity.
Qed.

Lemma nodup_filter_once (f : value -> bool) (l : list value) :
  (forall x, f x = true -> count_occ value_eq_dec l x <= 1) ->
  NoDup (filter f l).
Proof.
  induction l as [|a l IH]; simpl; intro H; [constructor|].
  assert (Hl : forall x, f x = true -> count_occ value_eq_dec l x <= 1).
  { intros x Hx. specialize (H x Hx).
    destruct (value_eq_dec a x); lia. }
  destruct (f a) eqn:Ea; [|apply IH, Hl].
  constructor; [|apply IH, Hl].
  intro Hin. apply filter_In in Hin. destruct Hin as [Hin _].
  apply (count_occ_In value_eq_dec) in Hin.
  specialize (H a Ea). destruct (value_eq_dec a a); [lia | contradiction].
Qed.

Section ChangedRows.

Variable cols : list string.
Variable order : set_order.

Lemma rows_with_id_count (df : table) (id_val : value) :
  notnull id_val = true ->
  List.length (rows_with_id cols df id_val)
  = count_occ value_eq_dec (ids cols df) id_val.
Proof.
  intro Hn. unfold rows_with_id, ids. rewrite Hn. simpl.
  induction df as [|r df IH]; simpl; [reflexivity|].
  destruct (value_eq_dec (get cols r "ID") id_val) as [E|E].
  - rewrite E, py_eq_refl; [simpl; now rewrite IH|].
    intro C. rewrite C in Hn. discriminate.
  - destruct (py_eq (get cols r "ID") id_val) eqn:P; [|exact IH].
    apply py_eq_eq in P. contradiction.
Qed.

Lemma modified_for_nonempty (b n : table) (id_val : value) :
  nonempty (modified_for cols b n id_val) = true ->
  notnull id_val = true /\
  In id_val (ids cols b) /\
  count_occ value_eq_dec (ids cols n) id_val = 1.
Proof.
  intro H.
  destruct (modified_for cols b n id_val) as [|e l] eqn:E; [discriminate|].
  assert (He : In e (modified_for cols b n id_val))
    by (rewrite E; left; reflexivity).
  apply in_modified_for in He. destruct He as (br & Hb & Hw & _).
  assert (Hin : In br (rows_with_id cols b id_val))
    by (rewrite Hb; left; reflexivity).
  apply in_rows_with_id in Hin. destruct Hin as (Hin & Hid & Hn).
  split; [exact Hn|]. split.
  - apply in_ids. exists br. tauto.
  - rewrite <- rows_with_id_count, Hw by exact Hn. reflexivity.
Qed.

Lemma changed_in_new_order_ids (b n : table) :
  changed_in_new_order cols b n
  = flat_map (modified_for cols b n) (ids cols n).
Proof.
  unfold changed_in_new_order, ids.
  assert (G : forall l : table,
            flat_map (fun r => if notnull (get cols r "ID")
                               then modified_for cols b n (get cols r "ID")
                               else []) l
            = flat_map (modified_for cols b n)
                       (map (fun r => get cols r "ID") l)).
  { induction l as [|r l IH]; simpl; [reflexivity|].
    rewrite IH. f_equal.
    destruct (notnull (get cols r "ID")) eqn:E; [reflexivity|].
    unfold modified_for, rows_with_id. rewrite E. simpl.
    now rewrite (filter_none _ b) by reflexivity. }
  apply G.
Qed.

Lemma modified_rows_perm (b n : table) :
  Permutation (modified_rows cols order b n) (changed_in_new_order cols b n).
Proof.
  rewrite changed_in_new_order_ids. unfold modified_rows.
  rewrite (flat_map_filter_nonempty _ (common_ids cols order b n)),
          (flat_map_filter_nonempty _ (ids cols n)).
  apply Permutation_flat_map.
  apply NoDup_Permutation.
  - apply NoDup_filter, common_ids_nodup.
  - apply nodup_filter_once. intros x Hx.
    apply modified_for_nonempty in Hx. lia.
  - intro x. rewrite !filter_In, in_common_ids. split.
    + tauto.
    + intros [Hx Hne]. split; [|exact Hne].
      apply modified_for_nonempty in Hne. tauto.
Qed.

End ChangedRows.

(** ** The unique table *)

Lemma in_unique_rows (cols : list string) (order : set_order) (b n : table)
    (e : row_dict) :
  In e (unique_rows cols order b n) <->
  In e (modified_rows cols order b n) \/
  (change_summary e = "New Entry" /\ In (cells e) (only_in_new b n)) \/
  (change_summary e = "Removed Entry" /\ In (cells e) (only_in_benchmark b n)).
Proof.
  unfold unique_rows. rewrite !in_app_iff, !in_map_iff.
  split.
  - intros [H|[(r & <- & H)|(r & <- & H)]]; simpl; auto.
  - intros [H|[[Hs H]|[Hs H]]]; auto.
    + right; left. exists (cells e). split; [|exact H].
      destruct e; simpl in *; now subst.
    + right; right. exists (cells e). split; [|exact H].
      destruct e; simpl in *; now subst.
Qed.







(** ** The changed rows, in the words of the specification *)

Lemma flat_map_ext_in {A B : Type} (f g : A -> list B) (l : list A) :
  (forall x, In x l -> f x = g x) -> flat_map f l = flat_map g l.
Proof.
  induction l as [|a l IH]; intro H; simpl; [reflexivity|].
  rewrite (H a) by now left.
  rewrite IH; [reflexivity|]. intros x Hx. apply H. now right.
Qed.

Lemma find_filter {A : Type} (f : A -> bool) (l : list A) :
  find f l = hd_error (filter f l).
Proof.
  induction l as [|a l IH]; simpl; [reflexivity|].
  destruct (f a); [reflexivity | exact IH].
Qed.

Lemma rows_with_id_carries (cols : list string) (t : table)
    (id_val : value) :
  notnull id_val = true ->
  rows_with_id cols t id_val = filter (carries cols id_val) t.
Proof.
  intro Hn. unfold rows_with_id. apply filter_ext. intro r.
  rewrite Hn. simpl. unfold carries.
  destruct (value_eq_dec (get cols r "ID") id_val) as [E|E].
  - rewrite E. apply py_eq_refl. intro C. rewrite C in Hn. discriminate.
  - destruct (py_eq (get cols r "ID") id_val) eqn:P; [|reflexivity].
    apply py_eq_eq in P. contradiction.
Qed.

Lemma changed_in_new_order_spec (cols : list string) (b n : table) :
  changed_in_new_order cols b n = spec_changed_rows cols b n.
Proof.
  unfold changed_in_new_order, spec_changed_rows.
  apply flat_map_ext_in. intros r Hr.
  destruct (notnull (get cols r "ID")) eqn:Hn; [|reflexivity].
  simpl.
  rewrite <- !(rows_with_id_count cols) by exact Hn.
  unfold modified_for.
  assert (Hin : In r (rows_with_id cols n (get cols r "ID")))
    by (apply in_rows_with_id; tauto).
  rewrite find_filter, <- (rows_with_id_carries cols b _ Hn).
  destruct (rows_with_id cols b (get cols r "ID")) as [|br [|br2 lb]];
    destruct (rows_with_id cols n (get cols r "ID")) as [|nr [|nr2 ln]];
    simpl; try reflexivity; try contradiction.
  destruct Hin as [->|[]].
  rewrite diff_columns_field_diff.
  destruct (field_diff cols br r); reflexivity.
Qed.

Lemma modified_rows_spec (cols : list string) (order : set_order)
    (b n : table) :
  Permutation (modified_rows cols order b n) (spec_changed_rows cols b n).
Proof.
  rewrite <- changed_in_new_order_spec. apply modified_rows_perm.
Qed.




(** ** Rows that cannot be keyed *)

(** C5: a row of the unique table whose identifier is null, or is carried
    by more than one row of the new table or of the benchmark, is annotated
    as a new or as a removed entry, never as changed; the rows annotated as
    changed have an identifier that is not null and selects exactly one row
    of each table.  Such rows go the way of full-row equality: a new row
    equal to a benchmark row is a duplicate, any other new row a new entry,
    a benchmark row equal to no new row a removed entry. *)
Theorem unkeyed_rows_not_paired (order : set_order)
    (df_benchmark df_new : table) :
  let b := normalize_nulls df_benchmark in
  let n := normalize_nulls df_new in
  let d := fst (find_duplicates_and_unique COLUMNS order df_benchmark df_new) in
  let u := snd (find_duplicates_and_unique COLUMNS order df_benchmark df_new) in
  (forall e, In e u ->
     notnull (get COLUMNS (cells e) "ID") = false \/
     count_occ value_eq_dec (ids COLUMNS n) (get COLUMNS (cells e) "ID") > 1 \/
     count_occ value_eq_dec (ids COLUMNS b) (get COLUMNS (cells e) "ID") > 1 ->
     change_summary e = "New Entry" \/ change_summary e = "Removed Entry") /\
  (forall e, In e (changed_entries u) ->
     notnull (get COLUMNS (cells e) "ID") = true /\
     rows_with_id COLUMNS n (get COLUMNS (cells e) "ID") = [cells e] /\
     List.length (rows_with_id COLUMNS b (get COLUMNS (cells e) "ID")) = 1) /\
  (forall r, In r n -> In r b -> In r d) /\
  (forall r, In r n -> ~ In r b -> In (annotate "New Entry" r) u) /\
  (forall r, In r b -> ~ In r n -> In (annotate "Removed Entry" r) u).
Proof.
  unfold find_duplicates_and_unique; simpl.
  set (b := normalize_nulls df_benchmark). set (n := normalize_nulls df_new).
  assert (Hmod : forall e, In e (modified_rows COLUMNS order b n) ->
            notnull (get COLUMNS (cells e) "ID") = true /\
            rows_with_id COLUMNS n (get COLUMNS (cells e) "ID") = [cells e] /\
            List.length (rows_with_id COLUMNS b (get COLUMNS (cells e) "ID"))
            = 1).
  { intros e He. apply in_modified_rows in He.
    destruct He as (Hn & br & Hb & Hw & _). rewrite Hb. tauto. }
  split; [|split; [|split; [|split]]].
  - intros e He Hk. apply in_unique_rows in He.
    destruct He as [He|[[Hs _]|[Hs _]]]; auto.
    exfalso. destruct (Hmod e He) as (Hn & Hw & Hb).
    rewrite rows_with_id_count in Hb by exact Hn.
    assert (Hc : List.length (rows_with_id COLUMNS n
                                (get COLUMNS (cells e) "ID")) = 1)
      by (rewrite Hw; reflexivity).
    rewrite rows_with_id_count in Hc by exact Hn.
    destruct Hk as [Hk|[Hk|Hk]]; [congruence | lia | lia].
  - intros e He.
    rewrite (proj1 (entries_of_unique_rows order b n)) in He.
    apply Hmod, He.
  - intros r Hn Hb. apply in_merge_inner. tauto.
  - intros r Hn Hb. apply in_unique_rows. right; left.
    split; [reflexivity|]. apply in_only_in_new. tauto.
  - intros r Hb Hn. apply in_unique_rows. right; right.
    split; [reflexivity|]. apply in_only_in_benchmark. tauto.
Qed.

Lemma unkeyed_rows_not_paired_witness :
  let b := [[VNum 1; VStr "A"; VNum 30; VStr "X"]] in
  let n := [[VNum 1; VStr "A"; VNum 31; VStr "X"];
            [VNum 1; VStr "B"; VNum 32; VStr "Y"];
            [VNaN; VStr "C"; VNum 33; VStr "Z"]] in
  let u := snd (find_duplicates_and_unique COLUMNS insertion_order b n) in
  In (annotate "New Entry" [VNaN; VStr "C"; VNum 33; VStr "Z"]) u /\
  (change_summary (annotate "New Entry" [VNum 1; VStr "B"; VNum 32; VStr "Y"])
   = "New Entry" \/
   change_summary (annotate "New Entry" [VNum 1; VStr "B"; VNum 32; VStr "Y"])
   = "Removed Entry").
Proof.
  intros b n u. split.
  - apply (proj1 (proj2 (proj2 (proj2
             (unkeyed_rows_not_paired insertion_order b n))))).
    + simpl. tauto.
    + vm_compute. intuition discriminate.
  - apply (proj1 (unkeyed_rows_not_paired insertion_order b n)).
    + vm_compute. tauto.
    + right; left. vm_compute. lia.
Defined.

(** ** The highlight mapper *)

Lemma fill_cell_length (i : nat) (fills : list bool) :
  List.length (fill_cell i fills) = List.length fills.
Proof.
  revert i. induction fills as [|h t IH]; intros [|i]; simpl; auto.
Qed.

Lemma nth_fill_cell (i j : nat) (fills : list bool) :
  nth j (fill_cell i fills) false
  = nth j fills false || ((i =? j)%nat && (j <? List.length fills)%nat).
Proof.
  revert i j. induction fills as [|h t IH]; intros i j; simpl.
  - destruct i, j; simpl; rewrite ?andb_false_r; reflexivity.
  - destruct i as [|i], j as [|j]; simpl.
    + now rewrite orb_true_r.
    + now rewrite orb_false_r.
    + now rewrite orb_false_r.
    + rewrite IH. reflexivity.
Qed.

Lemma fold_fill_length {A : Type} (step : list bool -> A -> list bool)
    (l : list A) (fills : list bool) :
  (forall ws a, List.length (step ws a) = List.length ws) ->
  List.length (fold_left step l fills) = List.length fills.
Proof.
  intro H. revert fills. induction l as [|a l IH]; intro fills; simpl;
    [reflexivity|].
  now rewrite IH, H.
Qed.

Lemma nth_fold_fill {A : Type} (step : list bool -> A -> list bool)
    (hit : A -> bool) (j : nat) (l : list A) (fills : list bool) :
  (forall ws a, List.length (step ws a) = List.length ws) ->
  (forall ws a, nth j (step ws a) false
                = nth j ws false || (hit a && (j <? List.length ws)%nat)) ->
  nth j (fold_left step l fills) false
  = nth j fills false || (existsb hit l && (j <? List.length fills)%nat).
Proof.
  intros Hl Hn. revert fills.
  induction l as [|a l IH]; intro fills; simpl.
  - now rewrite orb_false_r.
  - rewrite IH, Hn, Hl.
    destruct (nth j fills false), (hit a), (existsb hit l),
      (j <? List.length fills)%nat; reflexivity.
Qed.

Lemma nth_repeat_false (j n : nat) : nth j (repeat false n) false = false.
Proof.
  revert j. induction n as [|n IH]; intros [|j]; simpl; auto.
Qed.

Section Highlights.

Variable cols : list string.

Lemma index_of_bound (name : string) (l : list string) (i : nat) :
  index_of name l = Some i -> i < List.length l.
Proof.
  revert i. induction l as [|c l IH]; simpl; intro i; [discriminate|].
  destruct (c =? name)%string.
  - intro H. injection H as <-. lia.
  - destruct (index_of name l) as [k|]; simpl; [|discriminate].
    intro H. injection H as <-. specialize (IH k eq_refl). lia.
Qed.

Lemma index_of_first (name c : string) (l : list string) :
  index_of name (c :: l) = Some 0 -> c = name.
Proof.
  simpl. destruct (c =? name)%string eqn:E.
  - intros _. now apply String.eqb_eq.
  - destruct (index_of name l); discriminate.
Qed.

Lemma highlight_row_length (change_cols : option string) :
  List.length (highlight_row cols change_cols) = List.length cols.
Proof.
  unfold highlight_row.
  destruct change_cols as [s|]; [|apply repeat_length].
  destruct (s =? EmptyString)%string; [apply repeat_length|].
  destruct ((s =? "New Entry") || (s =? "Removed Entry"))%string.
  - rewrite fold_fill_length; [apply repeat_length|].
    intros ws a. apply fill_cell_length.
  - rewrite fold_fill_length; [apply repeat_length|].
    intros ws a. destruct (index_of a cols); [apply fill_cell_length|].
    reflexivity.
Qed.

Lemma highlight_row_marker (s : string) (j : nat) :
  s = "New Entry" \/ s = "Removed Entry" ->
  j < List.length cols ->
  nth j (highlight_row cols (Some s)) false = true.
Proof.
  intros Hs Hj. unfold highlight_row.
  assert (E : (s =? EmptyString)%string = false)
    by (destruct Hs as [->| ->]; reflexivity).
  assert (M : ((s =? "New Entry") || (s =? "Removed Entry"))%string = true)
    by (destruct Hs as [->| ->]; reflexivity).
  rewrite E, M.
  rewrite (nth_fold_fill _ (fun col_idx => (col_idx - 1 =? j)%nat)).
  - rewrite repeat_length, nth_repeat_false. simpl.
    apply andb_true_iff. split; [|apply Nat.ltb_lt, Hj].
    apply existsb_exists. exists (S j). split.
    + apply in_seq. lia.
    + apply Nat.eqb_eq. lia.
  - intros ws a. apply fill_cell_length.
  - intros ws a. apply nth_fill_cell.
Qed.

Lemma highlight_row_names (s : string) (j : nat) :
  s <> "New Entry" -> s <> "Removed Entry" -> s <> EmptyString ->
  (nth j (highlight_row cols (Some s)) false = true <->
   exists name, In name (split s) /\ index_of name cols = Some j).
Proof.
  intros H1 H2 H3. unfold highlight_row.
  apply String.eqb_neq in H1, H2, H3. rewrite H1, H2, H3. simpl.
  rewrite (nth_fold_fill _ (names_column cols j)).
  - rewrite repeat_length, nth_repeat_false. simpl.
    rewrite andb_true_iff, existsb_exists. unfold names_column. split.
    + intros [(name & Hin & Hi) _]. exists name. split; [exact Hin|].
      destruct (index_of name cols) as [i|]; [|discriminate].
      apply Nat.eqb_eq in Hi. now subst.
    + intros (name & Hin & Hi). split.
      * exists name. split; [exact Hin|]. rewrite Hi. apply Nat.eqb_refl.
      * apply Nat.ltb_lt. eapply index_of_bound, Hi.
  - intros ws a. destruct (index_of a cols); [apply fill_cell_length|].
    reflexivity.
  - intros ws a. unfold names_column.
    destruct (index_of a cols) as [i|]; [apply nth_fill_cell|].
    simpl. now rewrite orb_false_r.
Qed.

Lemma save_with_highlights_rows (df : list row_dict) :
  save_with_highlights cols df
  = map (fun e => highlight_row cols (summary_cell e)) df.
Proof. destruct df; reflexivity. Qed.

End Highlights.

(** C6: the fills of every row of the unique table.  A row annotated as a
    new or removed entry has every schema field filled.  Any other row has
    exactly the fields filled that its summary names and the schema holds;
    these are the fields on which it differs from its benchmark row, and
    [ID], the first field, is never among them.  For any summary at all,
    over any schema, the fills are defined, one per schema field, and a
    name outside the schema fills nothing. *)
Theorem highlight_mapping (order : set_order) (df_benchmark df_new : table) :
  let u := snd (find_duplicates_and_unique COLUMNS order df_benchmark df_new) in
  save_with_highlights COLUMNS u
  = map (fun e => highlight_row COLUMNS (summary_cell e)) u /\
  (forall e, In e u ->
     let fills := highlight_row COLUMNS (summary_cell e) in
     List.length fills = List.length COLUMNS /\
     (change_summary e = "New Entry" \/ change_summary e = "Removed Entry" ->
      forall j, j < List.length COLUMNS -> nth j fills false = true) /\
     (change_summary e <> "New Entry" ->
      change_summary e <> "Removed Entry" ->
      (forall j, nth j fills false = true <->
                 exists name, In name (split (change_summary e)) /\
                              index_of name COLUMNS = Some j) /\
      ~ In "ID" (split (change_summary e)) /\
      nth 0 fills false = false)) /\
  (forall (cols : list string) (s : string),
     List.length (highlight_row cols (Some s)) = List.length cols /\
     (s <> "New Entry" -> s <> "Removed Entry" -> s <> EmptyString ->
      forall j, nth j (highlight_row cols (Some s)) false = true <->
                exists name, In name (split s) /\
                             index_of name cols = Some j)).
Proof.
  unfold find_duplicates_and_unique; simpl.
  split; [apply save_with_highlights_rows|].
  split.
  - intros e He. split; [apply highlight_row_length|]. split.
    + intros Hs j Hj. unfold summary_cell.
      destruct Hs as [Hs|Hs]; rewrite Hs;
        apply (highlight_row_marker COLUMNS); auto.
    + intros H1 H2. apply in_unique_rows in He.
      destruct He as [He|[[Hs _]|[Hs _]]]; try contradiction.
      apply modified_summary in He.
      destruct He as (_ & _ & H3 & br & _ & _ & _ & Hsp & Hid).
      assert (Hc : summary_cell e = Some (change_summary e)).
      { unfold summary_cell. apply String.eqb_neq in H3. now rewrite H3. }
      rewrite Hc, Hsp.
      assert (Hj : forall j, nth j (highlight_row COLUMNS
                                      (Some (change_summary e))) false = true
                   <-> exists name, In name (field_diff COLUMNS br (cells e))
                                    /\ index_of name COLUMNS = Some j).
      { intro j. rewrite <- Hsp.
        now apply (highlight_row_names COLUMNS). }
      split; [exact Hj|]. split; [exact Hid|].
      destruct (nth 0 (highlight_row COLUMNS (Some (change_summary e))) false)
        eqn:E; [|reflexivity].
      exfalso. apply Hj in E. destruct E as (name & Hin & Hi).
      apply Hid. apply index_of_first in Hi. now subst.
  - intros cols s. split; [apply (highlight_row_length cols (Some s))|].
    intros H1 H2 H3 j. exact (highlight_row_names cols s j H1 H2 H3).
Qed.

Lemma highlight_mapping_witness :
  let e := {| cells := [VNum 1; VStr "A"; VNum 30; VStr "Z"];
              change_summary := "City" |} in
  highlight_row COLUMNS (summary_cell e) = [false; false; false; true] /\
  nth 0 (highlight_row COLUMNS (summary_cell e)) false = false.
Proof.
  intro e. split; [reflexivity|].
  apply (proj2 (proj2 (proj1 (proj2
           (highlight_mapping insertion_order
              scenario_aged_benchmark scenario_aged_new)) e
           ltac:(vm_compute; tauto)))).
  - discriminate.
  - discriminate.
Defined.

(** ** The two variants *)

Lemma prefix_append (c s : string) : String.prefix c (c ++ s)%string = true.
Proof.
  induction c as [|a c IH]; simpl; [destruct s; reflexivity|].
  destruct (ascii_dec a a) as [_|C]; [exact IH | contradiction].
Qed.

Lemma prefix_refl (c : string) : String.prefix c c = true.
Proof.
  induction c as [|a c IH]; simpl; [reflexivity|].
  destruct (ascii_dec a a) as [_|C]; [exact IH | contradiction].
Qed.

Lemma prefix_join (c : string) (l : list string) :
  String.prefix c (join (c :: l)) = true.
Proof.
  unfold join. simpl. destruct l; [apply prefix_refl | apply prefix_append].
Qed.

Lemma summary_of_not_removed (cols : list string) (b : table) (r : row) :
  forallb (fun c => negb (String.prefix c "Removed Entry")) cols = true ->
  summary_of cols b r <> "Removed Entry".
Proof.
  intro Hc. unfold summary_of.
  destruct (rows_with_id cols b (get cols r "ID")) as [|br l];
    [discriminate|].
  destruct (changes_against cols br r) as [|c ch] eqn:E; [discriminate|].
  intro Hj.
  assert (Hin : In c cols).
  { assert (H : In c (changes_against cols br r)) by (rewrite E; now left).
    unfold changes_against in H. apply filter_In in H. tauto. }
  rewrite forallb_forall in Hc. specialize (Hc c Hin).
  rewrite <- Hj, prefix_join in Hc. discriminate.
Qed.

Lemma highlight_differences_not_removed (cols : list string)
    (df_benchmark df_new : table) (e : row_dict) :
  forallb (fun c => negb (String.prefix c "Removed Entry")) cols = true ->
  In e (highlight_differences cols df_benchmark df_new) ->
  change_summary e <> "Removed Entry".
Proof.
  intros Hc He. unfold highlight_differences in He.
  apply in_map_iff in He. destruct He as (r & <- & _). simpl.
  now apply summary_of_not_removed.
Qed.

Lemma set_iter_nil (order : set_order) : set_iter order [] = [].
Proof.
  apply Permutation_nil, Permutation_sym, set_iter_perm.
Qed.

Lemma removed_row_entries (cols : list string) (order : set_order)
    (df_benchmark df_new : table) (r : row) :
  In r (spec_removed_rows cols (normalize_nulls df_benchmark)
                          (normalize_nulls df_new)) ->
  In (annotate "Removed Entry" r)
     (pairwise_unique cols order df_benchmark df_new) /\
  (forall e, In e (pairwise_unique cols order df_benchmark df_new) ->
     cells e = r -> change_summary e = "Removed Entry").
Proof.
  unfold pairwise_unique, find_duplicates_and_unique; simpl.
  set (b := normalize_nulls df_benchmark). set (n := normalize_nulls df_new).
  intro Hr. unfold spec_removed_rows in Hr. apply filter_In in Hr.
  destruct Hr as [Hb Hid]. apply negb_true_iff in Hid. unfold set_mem in Hid.
  destruct (in_dec value_eq_dec (get cols r "ID") (ids cols n)) as [|Hno];
    [discriminate|]. clear Hid.
  assert (Hn : ~ In r n).
  { intro Hn. apply Hno, in_ids. exists r. tauto. }
  split.
  - apply in_unique_rows. right; right.
    split; [reflexivity|]. apply in_only_in_benchmark. tauto.
  - intros e He Hc. apply in_unique_rows in He.
    destruct He as [He|[[_ He]|[Hs _]]]; [| |exact Hs]; exfalso.
    + apply in_modified_rows in He. destruct He as (_ & br & _ & Hw & _).
      apply Hn. rewrite <- Hc.
      assert (Hin : In (cells e) (rows_with_id cols n
                                    (get cols (cells e) "ID")))
        by (rewrite Hw; left; reflexivity).
      apply in_rows_with_id in Hin. tauto.
    + apply in_only_in_new in He. apply Hn. rewrite <- Hc. tauto.
Qed.

Lemma changed_entry_not_removed (order : set_order)
    (df_benchmark df_new : table) (e : row_dict) :
  In e (changed_entries (pairwise_unique COLUMNS order df_benchmark df_new)) ->
  In (cells e) (normalize_nulls df_new) /\
  In (get COLUMNS (cells e) "ID")
     (ids COLUMNS (normalize_nulls df_benchmark)) /\
  ~ In (cells e) (spec_removed_rows COLUMNS (normalize_nulls df_benchmark)
                                    (normalize_nulls df_new)).
Proof.
  unfold pairwise_unique, find_duplicates_and_unique; simpl.
  set (b := normalize_nulls df_benchmark). set (n := normalize_nulls df_new).
  rewrite (proj1 (entries_of_unique_rows order b n)).
  intro He. apply in_modified_rows in He.
  destruct He as (_ & br & Hb & Hw & _).
  assert (Hin : In (cells e) (rows_with_id COLUMNS n
                                (get COLUMNS (cells e) "ID")))
    by (rewrite Hw; left; reflexivity).
  apply in_rows_with_id in Hin. destruct Hin as [Hin _].
  assert (Hbr : In br (rows_with_id COLUMNS b (get COLUMNS (cells e) "ID")))
    by (rewrite Hb; left; reflexivity).
  apply in_rows_with_id in Hbr.
  split; [exact Hin|]. split.
  - apply in_ids. exists br. tauto.
  - intro Hr. unfold spec_removed_rows in Hr. apply filter_In in Hr.
    destruct Hr as [_ Hid]. apply negb_true_iff in Hid.
    unfold set_mem in Hid.
    destruct (in_dec value_eq_dec (get COLUMNS (cells e) "ID")
                (ids COLUMNS n)) as [|Hno]; [discriminate|].
    apply Hno, in_ids. exists (cells e). tauto.
Qed.

Lemma mixed_pairwise (order : set_order) :
  pairwise_unique COLUMNS order mixed_benchmark mixed_new
  = [ annotate "City" [VNum 1; VStr "A"; VNum 30; VStr "Z"];
      annotate "New Entry" [VNum 1; VStr "A"; VNum 30; VStr "Z"];
      annotate "New Entry" [VNum 3; VStr "C"; VNum 35; VStr "W"];
      annotate "Removed Entry" [VNum 1; VStr "A"; VNum 30; VStr "X"];
      annotate "Removed Entry" [VNum 2; VStr "B"; VNum 40; VStr "Y"];
      annotate "Removed Entry" [VNum 4; VStr "D"; VNum 50; VStr "V"];
      annotate "Removed Entry" [VNum 4; VStr "E"; VNum 51; VStr "V"] ].
Proof.
  unfold pairwise_unique, find_duplicates_and_unique, unique_rows,
    modified_rows, common_ids.
  set (s := intersection _ _). vm_compute in s. subst s.
  rewrite set_iter_singleton. reflexivity.
Qed.

Lemma full_pairwise (order : set_order) :
  pairwise_unique COLUMNS_full order [full_removed_row] full_new_table
  = map (annotate "New Entry") full_new_table
    ++ [annotate "Removed Entry" full_removed_row].
Proof.
  unfold pairwise_unique, find_duplicates_and_unique, unique_rows,
    modified_rows, common_ids.
  set (s := intersection _ _). vm_compute in s. subst s.
  rewrite set_iter_nil. reflexivity.
Qed.

(** C9: the single-pass variant never annotates a row as a removed entry,
    over either schema of the repository.  The pairwise variant tells the
    removed rows from the changed ones: a benchmark row whose identifier no
    new row carries is in its output, and only as a removed entry; every
    changed pair of the two tables is in its output with its fields; and a
    row it annotates with fields is a row of the new table whose identifier
    the benchmark carries, never a removed row.  On a benchmark with a
    changed row, a removed row and two removed rows sharing an identifier,
    the single-pass variant annotates the removed row as a new entry, the
    marker of the added row, and the second of the two as [Name, Age], a
    list of fields like the [City] of the changed row; the pairwise variant
    annotates the three removed rows as removed entries and the changed row
    as [City].  Over the ten-column schema a removed row is a new entry to
    the one and a removed entry to the other.  So the two variants differ
    as functions, for every iteration order. *)
Theorem variants_not_equivalent (order : set_order) :
  (forall df_benchmark df_new e,
     (In e (highlight_differences COLUMNS df_benchmark df_new) \/
      In e (highlight_differences COLUMNS_full df_benchmark df_new)) ->
     change_summary e <> "Removed Entry") /\
  (forall cols df_benchmark df_new r,
     In r (spec_removed_rows cols (normalize_nulls df_benchmark)
                             (normalize_nulls df_new)) ->
     In (annotate "Removed Entry" r)
        (pairwise_unique cols order df_benchmark df_new) /\
     (forall e, In e (pairwise_unique cols order df_benchmark df_new) ->
        cells e = r -> change_summary e = "Removed Entry")) /\
  (forall cols df_benchmark df_new e,
     In e (spec_changed_rows cols (normalize_nulls df_benchmark)
                             (normalize_nulls df_new)) ->
     In e (pairwise_unique cols order df_benchmark df_new)) /\
  (forall df_benchmark df_new e,
     In e (changed_entries
             (pairwise_unique COLUMNS order df_benchmark df_new)) ->
     In (cells e) (normalize_nulls df_new) /\
     In (get COLUMNS (cells e) "ID")
        (ids COLUMNS (normalize_nulls df_benchmark)) /\
     ~ In (cells e) (spec_removed_rows COLUMNS (normalize_nulls df_benchmark)
                                       (normalize_nulls df_new))) /\
  (forall e,
     In e (highlight_differences COLUMNS mixed_benchmark mixed_new) <->
     In e [ annotate "New Entry" [VNum 1; VStr "A"; VNum 30; VStr "X"];
            annotate "City" [VNum 1; VStr "A"; VNum 30; VStr "Z"];
            annotate "New Entry" [VNum 2; VStr "B"; VNum 40; VStr "Y"];
            annotate "New Entry" [VNum 3; VStr "C"; VNum 35; VStr "W"];
            annotate "New Entry" [VNum 4; VStr "D"; VNum 50; VStr "V"];
            annotate "Name, Age" [VNum 4; VStr "E"; VNum 51; VStr "V"] ]) /\
  pairwise_unique COLUMNS order mixed_benchmark mixed_new
  = [ annotate "City" [VNum 1; VStr "A"; VNum 30; VStr "Z"];
      annotate "New Entry" [VNum 1; VStr "A"; VNum 30; VStr "Z"];
      annotate "New Entry" [VNum 3; VStr "C"; VNum 35; VStr "W"];
      annotate "Removed Entry" [VNum 1; VStr "A"; VNum 30; VStr "X"];
      annotate "Removed Entry" [VNum 2; VStr "B"; VNum 40; VStr "Y"];
      annotate "Removed Entry" [VNum 4; VStr "D"; VNum 50; VStr "V"];
      annotate "Removed Entry" [VNum 4; VStr "E"; VNum 51; VStr "V"] ] /\
  (forall e,
     In e (highlight_differences COLUMNS_full [full_removed_row]
                                 full_new_table) <->
     In e (annotate "New Entry" full_removed_row
           :: map (annotate "New Entry") full_new_table)) /\
  pairwise_unique COLUMNS_full order [full_removed_row] full_new_table
  = map (annotate "New Entry") full_new_table
    ++ [annotate "Removed Entry" full_removed_row] /\
  highlight_differences COLUMNS <> pairwise_unique COLUMNS order /\
  highlight_differences COLUMNS_full <> pairwise_unique COLUMNS_full order.
Proof.
  assert (H1 : forall df_benchmark df_new e,
            (In e (highlight_differences COLUMNS df_benchmark df_new) \/
             In e (highlight_differences COLUMNS_full df_benchmark df_new)) ->
            change_summary e <> "Removed Entry").
  { intros b n e [He|He];
      eapply highlight_differences_not_removed; try exact He; reflexivity. }
  split; [exact H1|].
  split; [intros cols b n r; apply removed_row_entries|].
  split.
  { intros cols b n e He.
    unfold pairwise_unique, find_duplicates_and_unique; simpl.
    apply in_unique_rows. left.
    apply (Permutation_in _ (Permutation_sym (modified_rows_spec _ _ _ _))).
    exact He. }
  split; [apply changed_entry_not_removed|].
  split; [intro e; vm_compute; tauto|].
  split; [apply mixed_pairwise|].
  split; [intro e; vm_compute; tauto|].
  split; [apply full_pairwise|].
  split.
  - intro Heq.
    apply (H1 mixed_benchmark mixed_new
             (annotate "Removed Entry" [VNum 2; VStr "B"; VNum 40; VStr "Y"]));
      [|reflexivity].
    left. rewrite Heq, mixed_pairwise. simpl. tauto.
  - intro Heq.
    apply (H1 [full_removed_row] full_new_table
             (annotate "Removed Entry" full_removed_row)); [|reflexivity].
    right. rewrite Heq, full_pairwise. simpl. tauto.
Qed.

Lemma variants_not_equivalent_witness :
  In (annotate "Removed Entry" [VNum 2; VStr "B"; VNum 40; VStr "Y"])
     (pairwise_unique COLUMNS insertion_order mixed_benchmark mixed_new) /\
  In (annotate "City" [VNum 1; VStr "A"; VNum 30; VStr "Z"])
     (pairwise_unique COLUMNS insertion_order mixed_benchmark mixed_new) /\
  change_summary
    (annotate "New Entry" [VNum 2; VStr "B"; VNum 40; VStr "Y"])
  <> "Removed Entry".
Proof.
  split; [|split].
  - apply (proj1 (proj2 (variants_not_equivalent insertion_order))
             COLUMNS mixed_benchmark mixed_new).
    vm_compute. tauto.
  - apply (proj1 (proj2 (proj2 (variants_not_equivalent insertion_order)))
             COLUMNS mixed_benchmark mixed_new).
    vm_compute. tauto.
  - apply (proj1 (variants_not_equivalent insertion_order)
             mixed_benchmark mixed_new).
    left. vm_compute. tauto.
Defined.

(** * Further properties of the code *)

(** ** The normalizer *)





(** X2: the handler normalizes both tables before the engine normalizes
    them again; the result is the engine's own on the tables as read, and
    the row counts of the statistics are those of the tables as read. *)
Theorem compare_files_normalizes_once (cols : list string)
    (order : set_order) (df_benchmark df_new : table) :
  compare_files cols order df_benchmark df_new
  = (fst (find_duplicates_and_unique cols order df_benchmark df_new),
     snd (find_duplicates_and_unique cols order df_benchmark df_new),
     {| benchmark_rows := List.length df_benchmark;
        new_rows := List.length df_new;
        duplicates_count :=
          List.length
            (fst (find_duplicates_and_unique cols order df_benchmark df_new));
        unique_count :=
          List.length
            (snd (find_duplicates_and_unique cols order df_benchmark
                    df_new)) |}).
Proof.
  unfold compare_files.
  replace (find_duplicates_and_unique cols order (normalize_nulls df_benchmark)
             (normalize_nulls df_new))
    with (find_duplicates_and_unique cols order df_benchmark df_new)
    by (unfold find_duplicates_and_unique;
        now rewrite !normalize_nulls_again).
  destruct (find_duplicates_and_unique cols order df_benchmark df_new)
    as [d u].
  unfold normalize_nulls. now rewrite !length_map.
Qed.

(** ** Joining and splitting a summary *)

Lemma append_empty_r (s : string) : (s ++ EmptyString)%string = s.
Proof. induction s as [|c s IH]; simpl; [reflexivity | now rewrite IH]. Qed.

Lemma append_assoc (a b c : string) :
  ((a ++ b) ++ c)%string = (a ++ (b ++ c))%string.
Proof. induction a as [|x a IH]; simpl; [reflexivity | now rewrite IH]. Qed.

Lemma split_sep_last (x cur : string) :
  sep_free x = true -> split_sep x cur = [(cur ++ x)%string].
Proof.
  revert cur. induction x as [|c x IH]; intros cur Hx.
  - simpl. now rewrite append_empty_r.
  - destruct x as [|d x'].
    + reflexivity.
    + change (sep_free (String c (String d x')))
        with (negb ((c =? ",")%char && (d =? " ")%char)
              && sep_free (String d x')) in Hx.
      apply andb_true_iff in Hx. destruct Hx as [Hc Hx].
      apply negb_true_iff in Hc.
      change (split_sep (String c (String d x')) cur)
        with (if ((c =? ",")%char && (d =? " ")%char)%bool
              then cur :: split_sep x' EmptyString
              else split_sep (String d x') (cur ++ String c EmptyString)).
      rewrite Hc, (IH _ Hx), append_assoc. reflexivity.
Qed.

Lemma split_sep_piece (x rest cur : string) :
  sep_free x = true ->
  split_sep (x ++ String "," (String " " rest)) cur
  = (cur ++ x)%string :: split_sep rest EmptyString.
Proof.
  revert cur. induction x as [|c x IH]; intros cur Hx.
  - simpl. now rewrite append_empty_r.
  - destruct x as [|d x'].
    + change (split_sep (String c (String "," (String " " rest))) cur
              = (cur ++ String c EmptyString)%string
                :: split_sep rest EmptyString).
      change (split_sep (String c (String "," (String " " rest))) cur)
        with (if ((c =? ",")%char && ("," =? " ")%char)%bool
              then cur :: split_sep (String " " rest) EmptyString
              else split_sep (String "," (String " " rest))
                             (cur ++ String c EmptyString)).
      change ("," =? " ")%char with false. rewrite andb_false_r.
      reflexivity.
    + change (sep_free (String c (String d x')))
        with (negb ((c =? ",")%char && (d =? " ")%char)
              && sep_free (String d x')) in Hx.
      apply andb_true_iff in Hx. destruct Hx as [Hc Hx].
      apply negb_true_iff in Hc.
      change (split_sep
                (String c (String d (x' ++ String "," (String " " rest))))
                cur
              = (cur ++ String c (String d x'))%string
                :: split_sep rest EmptyString).
      change (split_sep
                (String c (String d (x' ++ String "," (String " " rest))))
                cur)
        with (if ((c =? ",")%char && (d =? " ")%char)%bool
              then cur :: split_sep (x' ++ String "," (String " " rest))
                                    EmptyString
              else split_sep
                     (String d (x' ++ String "," (String " " rest)))
                     (cur ++ String c EmptyString)).
      rewrite Hc.
      change (String d (x' ++ String "," (String " " rest)))
        with (String d x' ++ String "," (String " " rest))%string.
      rewrite (IH _ Hx), append_assoc. reflexivity.
Qed.

Lemma split_join_names (changes : list string) :
  changes <> [] -> forallb sep_free changes = true ->
  split (join changes) = changes.
Proof.
  induction changes as [|x l IH]; intros Hne Hl; [contradiction|].
  simpl in Hl. apply andb_true_iff in Hl. destruct Hl as [Hx Hl].
  destruct l as [|y l'].
  - unfold split, join. simpl. now rewrite split_sep_last.
  - unfold split, join in *.
    change (String.concat ", " (x :: y :: l'))
      with (x ++ String "," (String " " (String.concat ", " (y :: l'))))%string.
    rewrite split_sep_piece by exact Hx. simpl append. f_equal.
    apply IH; [discriminate | exact Hl].
Qed.

Lemma split_sep_nonempty (s cur : string) : split_sep s cur <> [].
Proof.
  revert cur. induction s as [|c s IH]; intro cur; [discriminate|].
  destruct s as [|d s']; [discriminate|].
  change (split_sep (String c (String d s')) cur)
    with (if ((c =? ",")%char && (d =? " ")%char)%bool
          then cur :: split_sep s' EmptyString
          else split_sep (String d s') (cur ++ String c EmptyString)).
  destruct ((c =? ",")%char && (d =? " ")%char)%bool;
    [discriminate | apply IH].
Qed.

(** X3: splitting the joined summary gives the names back, for every
    non-empty list of names none of which holds [", "].  The empty list
    does not come back: its join is the empty string, and a split always
    yields at least one piece. *)
Theorem split_join (changes : list string) :
  (changes <> [] -> forallb sep_free changes = true ->
   split (join changes) = changes) /\
  split (join []) = [EmptyString] /\
  (forall s, split s <> []).
Proof.
  split; [apply split_join_names|].
  split; [reflexivity|].
  intro s. apply split_sep_nonempty.
Qed.

Lemma split_join_witness :
  split (join ["Name"; "City"]) = ["Name"; "City"].
Proof.
  apply (proj1 (split_join ["Name"; "City"])); [discriminate | reflexivity].
Defined.

(** ** Changed rows in the unique table *)

Lemma field_changed_sym (cols : list string) (r1 r2 : row) (col : string) :
  field_changed cols r1 r2 col = field_changed cols r2 r1 col.
Proof.
  unfold field_changed, py_ne. f_equal. f_equal.
  destruct (get cols r1 col), (get cols r2 col); simpl; try reflexivity.
  - apply Z.eqb_sym.
  - apply String.eqb_sym.
Qed.

Lemma field_diff_sym (cols : list string) (r1 r2 : row) :
  field_diff cols r1 r2 = field_diff cols r2 r1.
Proof.
  unfold field_diff. apply filter_ext. intro col. apply field_changed_sym.
Qed.

(** X4: a changed pair of the two tables, as the specification words it.
    The new version is in the unique table with its summary.  When the two
    versions differ as rows, the new version is there again as a new entry
    and the benchmark version as a removed entry, and neither is in the
    duplicates table.  When they are the same row, changed only in cells
    that hold a not-a-number on both sides, the row is in the duplicates
    table and is neither among the rows of the new table alone nor among
    those of the benchmark alone. *)
Theorem changed_row_entries (cols : list string) (order : set_order)
    (df_benchmark df_new : table) (e : row_dict) :
  let b := normalize_nulls df_benchmark in
  let n := normalize_nulls df_new in
  let d := fst (find_duplicates_and_unique cols order df_benchmark df_new) in
  let u := snd (find_duplicates_and_unique cols order df_benchmark df_new) in
  In e (spec_changed_rows cols b n) ->
  In e u /\
  exists bench_row,
    rows_with_id cols b (get cols (cells e) "ID") = [bench_row] /\
    rows_with_id cols n (get cols (cells e) "ID") = [cells e] /\
    (cells e <> bench_row ->
     In (annotate "New Entry" (cells e)) u /\
     In (annotate "Removed Entry" bench_row) u /\
     ~ In (cells e) d /\ ~ In bench_row d) /\
    (cells e = bench_row ->
     In (cells e) d /\
     ~ In (cells e) (only_in_new b n) /\
     ~ In bench_row (only_in_benchmark b n)).
Proof.
  unfold find_duplicates_and_unique; simpl.
  set (b := normalize_nulls df_benchmark). set (n := normalize_nulls df_new).
  intro He.
  apply (Permutation_in _
           (Permutation_sym (modified_rows_spec cols order b n))) in He.
  pose proof He as Hm. apply in_modified_rows in Hm.
  destruct Hm as (Hnn & br & Hb & Hn & Hd & _).
  assert (H1 : In br (rows_with_id cols b (get cols (cells e) "ID")))
    by (rewrite Hb; now left).
  assert (H2 : In (cells e) (rows_with_id cols n (get cols (cells e) "ID")))
    by (rewrite Hn; now left).
  apply in_rows_with_id in H1, H2.
  split; [apply in_unique_rows; now left|].
  exists br. split; [exact Hb|]. split; [exact Hn|]. split.
  - intro Hne.
    assert (Hnb : ~ In (cells e) b).
    { intro Hin.
      assert (H : In (cells e) (rows_with_id cols b
                                  (get cols (cells e) "ID")))
        by (apply in_rows_with_id; tauto).
      rewrite Hb in H. destruct H as [H|[]]. now apply Hne. }
    assert (Hbn : ~ In br n).
    { intro Hin.
      assert (H : In br (rows_with_id cols n (get cols (cells e) "ID")))
        by (apply in_rows_with_id; tauto).
      rewrite Hn in H. destruct H as [H|[]]. now apply Hne. }
    split; [apply in_unique_rows; right; left; split; [reflexivity|];
            apply in_only_in_new; tauto|].
    split; [apply in_unique_rows; right; right; split; [reflexivity|];
            apply in_only_in_benchmark; tauto|].
    rewrite !in_merge_inner. tauto.
  - intro Heq. rewrite <- Heq in *.
    split; [apply in_merge_inner; tauto|].
    rewrite in_only_in_new, in_only_in_benchmark. tauto.
Qed.

Lemma changed_row_entries_witness :
  In (annotate "New Entry" [VNum 1; VStr "A"; VNum 30; VStr "Z"])
     (snd (find_duplicates_and_unique COLUMNS insertion_order
             scenario_aged_benchmark scenario_aged_new)) /\
  In (annotate "Removed Entry" [VNum 1; VStr "A"; VNum 30; VStr "X"])
     (snd (find_duplicates_and_unique COLUMNS insertion_order
             scenario_aged_benchmark scenario_aged_new)).
Proof.
  destruct (changed_row_entries COLUMNS insertion_order
              scenario_aged_benchmark scenario_aged_new
              {| cells := [VNum 1; VStr "A"; VNum 30; VStr "Z"];
                 change_summary := "City" |}
              ltac:(vm_compute; tauto))
    as (_ & br & Hb & _ & Hdiff & _).
  vm_compute in Hb. injection Hb as <-.
  destruct Hdiff as (H1 & H2 & _); [discriminate|].
  split; [exact H1 | exact H2].
Defined.

(** ** Swapping the two tables *)

Lemma only_in_new_swap (t1 t2 : table) :
  Permutation (only_in_new t1 t2) (only_in_benchmark t2 t1).
Proof.
  eapply Permutation_trans; [apply only_in_new_perm|].
  apply Permutation_sym, only_in_benchmark_perm.
Qed.

Lemma modified_rows_swap (cols : list string) (order1 order2 : set_order)
    (t1 t2 : table) (e : row_dict) :
  In e (modified_rows cols order1 t1 t2) ->
  exists e',
    In e' (modified_rows cols order2 t2 t1) /\
    rows_with_id cols t1 (get cols (cells e) "ID") = [cells e'] /\
    get cols (cells e') "ID" = get cols (cells e) "ID" /\
    change_summary e' = change_summary e.
Proof.
  intro He. apply in_modified_rows in He.
  destruct He as (Hnn & br & Hb & Hn & Hd & Hs).
  assert (H1 : In br (rows_with_id cols t1 (get cols (cells e) "ID")))
    by (rewrite Hb; now left).
  apply in_rows_with_id in H1. destruct H1 as (_ & Hid & _).
  exists {| cells := br; change_summary := change_summary e |}. simpl.
  split; [|tauto].
  apply in_modified_rows. simpl. rewrite Hid.
  split; [exact Hnn|]. exists (cells e).
  rewrite (field_diff_sym cols (cells e) br). tauto.
Qed.

(** X5: swapping the benchmark and the new table keeps the duplicates, up
    to their order, turns the new entries into the removed entries and the
    removed entries into the new entries, with the same rows, and turns
    each changed row into its benchmark version with the same summary. *)
Theorem swap_tables (order1 order2 : set_order) (df_benchmark df_new : table) :
  let r1 := find_duplicates_and_unique COLUMNS order1 df_benchmark df_new in
  let r2 := find_duplicates_and_unique COLUMNS order2 df_new df_benchmark in
  Permutation (fst r1) (fst r2) /\
  Permutation (entries_with "New Entry" (snd r1))
              (entries_with "Removed Entry" (snd r2)) /\
  Permutation (entries_with "Removed Entry" (snd r1))
              (entries_with "New Entry" (snd r2)) /\
  (forall e, In e (changed_entries (snd r1)) ->
     exists e',
       In e' (changed_entries (snd r2)) /\
       rows_with_id COLUMNS (normalize_nulls df_benchmark)
                    (get COLUMNS (cells e) "ID") = [cells e'] /\
       change_summary e' = change_summary e).
Proof.
  unfold find_duplicates_and_unique; simpl.
  destruct (entries_of_unique_rows order1 (normalize_nulls df_benchmark)
              (normalize_nulls df_new)) as (-> & -> & ->).
  destruct (entries_of_unique_rows order2 (normalize_nulls df_new)
              (normalize_nulls df_benchmark)) as (-> & -> & ->).
  split; [apply merge_inner_swap|].
  split; [apply only_in_new_swap|].
  split; [apply Permutation_sym, only_in_new_swap|].
  intros e He.
  destruct (modified_rows_swap COLUMNS order1 order2 _ _ e He)
    as (e' & H1 & H2 & _ & H3).
  exists e'. tauto.
Qed.

Lemma swap_tables_witness :
  exists e',
    In e' (changed_entries
             (snd (find_duplicates_and_unique COLUMNS reverse_order
                     scenario_aged_new scenario_aged_benchmark))) /\
    change_summary e' = "City".
Proof.
  destruct (proj2 (proj2 (proj2
              (swap_tables insertion_order reverse_order
                 scenario_aged_benchmark scenario_aged_new)))
              {| cells := [VNum 1; VStr "A"; VNum 30; VStr "Z"];
                 change_summary := "City" |}
              ltac:(vm_compute; tauto)) as (e' & H1 & _ & H2).
  exists e'. split; [exact H1 | exact H2].
Defined.

(** ** An empty table *)

Lemma rows_absent_from_nil (t : table) : rows_absent_from [] t = t.
Proof.
  unfold rows_absent_from. apply filter_all. reflexivity.
Qed.

Lemma modified_rows_nil_l (cols : list string) (order : set_order)
    (t : table) : modified_rows cols order [] t = [].
Proof.
  apply no_member_nil. intros e He. apply in_modified_rows in He.
  destruct He as (_ & br & Hb & _). discriminate.
Qed.

Lemma modified_rows_nil_r (cols : list string) (order : set_order)
    (t : table) : modified_rows cols order t [] = [].
Proof.
  apply no_member_nil. intros e He. apply in_modified_rows in He.
  destruct He as (_ & br & _ & Hn & _). discriminate.
Qed.

(** X6: against an empty benchmark every row of the new table is a new
    entry and nothing else is reported; against an empty new table every
    benchmark row is a removed entry; in both cases there is no duplicate
    and no changed row. *)
Theorem empty_table (cols : list string) (order : set_order) (t : table) :
  fst (find_duplicates_and_unique cols order [] t) = [] /\
  Permutation (snd (find_duplicates_and_unique cols order [] t))
              (map (annotate "New Entry") (normalize_nulls t)) /\
  fst (find_duplicates_and_unique cols order t []) = [] /\
  Permutation (snd (find_duplicates_and_unique cols order t []))
              (map (annotate "Removed Entry") (normalize_nulls t)).
Proof.
  unfold find_duplicates_and_unique, unique_rows; simpl.
  rewrite modified_rows_nil_l, modified_rows_nil_r.
  rewrite (no_member_nil (only_in_benchmark [] _)),
          (no_member_nil (only_in_new _ [])),
          (no_member_nil (merge_inner _ [])).
  - simpl. rewrite app_nil_r.
    split; [reflexivity|]. split; [|split; [reflexivity|]].
    + apply Permutation_map.
      rewrite <- (rows_absent_from_nil (normalize_nulls t)) at 2.
      apply only_in_new_perm.
    + apply Permutation_map.
      rewrite <- (rows_absent_from_nil (normalize_nulls t)) at 2.
      apply only_in_benchmark_perm.
  - intros x Hx. apply in_merge_inner in Hx. tauto.
  - intros x Hx. apply in_only_in_new in Hx. tauto.
  - intros x Hx. apply in_only_in_benchmark in Hx. tauto.
Qed.

(** ** The single-pass variant *)

Lemma single_pass_cells (cols : list string) (df_benchmark df_new : table) :
  map cells (highlight_differences cols df_benchmark df_new)
  = flat_map
      (fun k => repeat k
         (one_side_count (normalize_nulls df_benchmark)
                         (normalize_nulls df_new) k
          + one_side_count (normalize_nulls df_new)
                           (normalize_nulls df_benchmark) k))
      (sort_keys (nodup row_eq_dec
                    (normalize_nulls df_benchmark ++ normalize_nulls df_new))).
Proof.
  unfold highlight_differences. rewrite map_map. simpl. rewrite map_id.
  unfold merge_outer.
  induction (sort_keys _) as [|k keys IH]; simpl; [reflexivity|].
  rewrite filter_app, map_app, IH. f_equal.
  unfold one_side_count.
  destruct (count_occ row_eq_dec (normalize_nulls df_benchmark) k) as [|lc];
    destruct (count_occ row_eq_dec (normalize_nulls df_new) k) as [|rc];
    simpl Nat.eqb; cbv iota.
  - reflexivity.
  - rewrite (filter_all _ (repeat _ _)), map_repeat; [reflexivity|].
    intros x Hx. apply repeat_spec in Hx. now subst.
  - rewrite (filter_all _ (repeat _ _)), map_repeat, Nat.add_0_r;
      [reflexivity|].
    intros x Hx. apply repeat_spec in Hx. now subst.
  - rewrite (filter_none _ (repeat _ _)); [reflexivity|].
    intros x Hx. apply repeat_spec in Hx. now subst.
Qed.

Lemma count_occ_single_pass (cols : list string) (df_benchmark df_new : table)
    (x : row) :
  count_occ row_eq_dec
    (map cells (highlight_differences cols df_benchmark df_new)) x
  = count_occ row_eq_dec
      (rows_absent_from (normalize_nulls df_new)
                        (normalize_nulls df_benchmark)
       ++ rows_absent_from (normalize_nulls df_benchmark)
                           (normalize_nulls df_new)) x.
Proof.
  rewrite single_pass_cells, count_occ_flat_map_repeat, count_occ_keys.
  rewrite count_occ_app. unfold rows_absent_from, one_side_count.
  rewrite !count_occ_filter, !count_occ_zero_mem.
  set (b := normalize_nulls df_benchmark). set (n := normalize_nulls df_new).
  destruct (mem_row x (b ++ n)) eqn:E; [lia|].
  apply mem_row_false in E.
  rewrite (proj1 (count_occ_not_In row_eq_dec b x)),
          (proj1 (count_occ_not_In row_eq_dec n x));
    [destruct (mem_row x b), (mem_row x n); reflexivity | |];
    intro H; apply E, in_or_app; tauto.
Qed.

Lemma single_pass_cells_perm (cols : list string)
    (df_benchmark df_new : table) :
  Permutation
    (map cells (highlight_differences cols df_benchmark df_new))
    (rows_absent_from (normalize_nulls df_new) (normalize_nulls df_benchmark)
     ++ rows_absent_from (normalize_nulls df_benchmark)
                         (normalize_nulls df_new)).
Proof.
  apply (Permutation_count_occ row_eq_dec). intro x.
  apply count_occ_single_pass.
Qed.

(** X7: the rows the single-pass variant reports are the rows of the
    benchmark equal to no new row together with the rows of the new table
    equal to no benchmark row, each as often as its table holds it; two
    identical tables give an empty report. *)
Theorem single_pass_rows (cols : list string) (df_benchmark df_new : table) :
  Permutation
    (map cells (highlight_differences cols df_benchmark df_new))
    (rows_absent_from (normalize_nulls df_new) (normalize_nulls df_benchmark)
     ++ rows_absent_from (normalize_nulls df_benchmark)
                         (normalize_nulls df_new)) /\
  highlight_differences cols df_benchmark df_benchmark = [].
Proof.
  split; [apply single_pass_cells_perm|].
  pose proof (single_pass_cells_perm cols df_benchmark df_benchmark) as P.
  assert (E : rows_absent_from (normalize_nulls df_benchmark)
                               (normalize_nulls df_benchmark) = []).
  { apply no_member_nil. intros x Hx. apply in_rows_absent_from in Hx.
    tauto. }
  rewrite E in P. simpl in P.
  apply Permutation_sym, Permutation_nil in P.
  now apply map_eq_nil in P.
Qed.

Lemma in_single_pass (cols : list string) (df_benchmark df_new : table)
    (e : row_dict) :
  In e (highlight_differences cols df_benchmark df_new) <->
  change_summary e = summary_of cols (normalize_nulls df_benchmark) (cells e)
  /\
  ((In (cells e) (normalize_nulls df_benchmark) /\
    ~ In (cells e) (normalize_nulls df_new)) \/
   (In (cells e) (normalize_nulls df_new) /\
    ~ In (cells e) (normalize_nulls df_benchmark))).
Proof.
  assert (M : forall r,
            In r (map cells (highlight_differences cols df_benchmark df_new))
            <-> (In r (normalize_nulls df_benchmark) /\
                 ~ In r (normalize_nulls df_new)) \/
                (In r (normalize_nulls df_new) /\
                 ~ In r (normalize_nulls df_benchmark))).
  { intro r.
    rewrite <- !in_rows_absent_from, <- in_app_iff.
    split; apply Permutation_in;
      [|apply Permutation_sym]; apply single_pass_cells_perm. }
  split.
  - intro He. split.
    + unfold highlight_differences in He. apply in_map_iff in He.
      destruct He as (r & <- & _). reflexivity.
    + apply M, in_map, He.
  - intros [Hs Hr]. apply M in Hr. apply in_map_iff in Hr.
    destruct Hr as (e0 & Hc & He0).
    assert (e0 = e); [|now subst].
    pose proof He0 as H. unfold highlight_differences in H.
    apply in_map_iff in H. destruct H as (r & <- & _).
    simpl in Hc. destruct e as [ce se]. simpl in *. subst.
    reflexivity.
Qed.

Lemma changes_against_same (cols : list string) (r : row) :
  changes_against cols r r = filter (fun col => is_nan (get cols r col)) cols.
Proof.
  unfold changes_against. apply filter_ext. intro col. unfold py_ne.
  destruct (get cols r col); simpl; try reflexivity.
  - now rewrite Z.eqb_refl.
  - now rewrite String.eqb_refl.
Qed.

(** X8: the single-pass variant annotates a removed row like an added one.
    A benchmark row equal to no new row, when it is the first benchmark row
    carrying its identifier, is compared with itself: it is reported as a
    new entry when none of its schema fields is a not-a-number, and with
    the joined names of those that are otherwise.  It is reported as a new
    entry too when its identifier is null; and so is a new row whose
    identifier no benchmark row carries. *)
Theorem single_pass_new_entries (cols : list string)
    (df_benchmark df_new : table) (r : row) :
  let b := normalize_nulls df_benchmark in
  let n := normalize_nulls df_new in
  (In r b -> ~ In r n ->
   (exists rest, rows_with_id cols b (get cols r "ID") = r :: rest) ->
   In (annotate
         match filter (fun col => is_nan (get cols r col)) cols with
         | [] => "New Entry"
         | changes => join changes
         end r)
      (highlight_differences cols df_benchmark df_new)) /\
  (In r b -> ~ In r n -> notnull (get cols r "ID") = false ->
   In (annotate "New Entry" r)
      (highlight_differences cols df_benchmark df_new)) /\
  (In r n -> ~ In (get cols r "ID") (ids cols b) ->
   In (annotate "New Entry" r)
      (highlight_differences cols df_benchmark df_new)).
Proof.
  simpl. split; [|split].
  - intros Hb Hn [rest Hk]. apply in_single_pass. simpl. split; [|tauto].
    unfold summary_of. now rewrite Hk, changes_against_same.
  - intros Hb Hn Hk. apply in_single_pass. simpl. split; [|tauto].
    unfold summary_of, rows_with_id. rewrite Hk. simpl.
    now rewrite (filter_none _ (normalize_nulls df_benchmark)).
  - intros Hn Hid. apply in_single_pass. simpl. split.
    + unfold summary_of.
      destruct (rows_with_id cols (normalize_nulls df_benchmark)
                  (get cols r "ID")) as [|br rest] eqn:E; [reflexivity|].
      exfalso. apply Hid, in_ids. exists br.
      assert (H : In br (rows_with_id cols (normalize_nulls df_benchmark)
                           (get cols r "ID"))) by (rewrite E; now left).
      apply in_rows_with_id in H. tauto.
    + right. split; [exact Hn|]. intro Hb. apply Hid, in_ids.
      exists r. tauto.
Qed.

Lemma single_pass_new_entries_witness :
  In (annotate "New Entry" [VNum 2; VStr "B"; VNum 40; VStr "Y"])
     (highlight_differences COLUMNS mixed_benchmark mixed_new) /\
  In (annotate "Age" [VNum 2; VStr "B"; VNaN; VStr "Y"])
     (highlight_differences COLUMNS scenario_benchmark scenario_new).
Proof.
  split.
  - apply (proj1 (single_pass_new_entries COLUMNS mixed_benchmark
                    mixed_new [VNum 2; VStr "B"; VNum 40; VStr "Y"])).
    + vm_compute. tauto.
    + vm_compute. intuition discriminate.
    + exists []. reflexivity.
  - apply (proj1 (single_pass_new_entries COLUMNS scenario_benchmark
                    scenario_new [VNum 2; VStr "B"; VNaN; VStr "Y"])).
    + vm_compute. tauto.
    + vm_compute. intuition discriminate.
    + exists []. reflexivity.
Defined.

Lemma in_changes_against (cols : list string) (br r : row) (col : string) :
  In col (changes_against cols br r) ->
  In col cols /\ py_ne (get cols r col) (get cols br col) = true.
Proof.
  unfold changes_against. rewrite filter_In. intros [H1 H2].
  split; [exact H1|].
  destruct (get cols r col), (get cols br col); try exact H2; discriminate.
Qed.

Lemma single_pass_compared (cols : list string)
    (df_benchmark df_new : table) (e : row_dict) :
  In e (highlight_differences cols df_benchmark df_new) ->
  change_summary e <> "New Entry" ->
  exists bench_row rest,
    rows_with_id cols (normalize_nulls df_benchmark)
                 (get cols (cells e) "ID") = bench_row :: rest /\
    changes_against cols bench_row (cells e) <> [] /\
    change_summary e = join (changes_against cols bench_row (cells e)) /\
    ~ In "ID" (changes_against cols bench_row (cells e)).
Proof.
  intros He Hs. apply in_single_pass in He. destruct He as [Hsum Hrow].
  unfold summary_of in Hsum.
  destruct (rows_with_id cols (normalize_nulls df_benchmark)
              (get cols (cells e) "ID")) as [|br rest] eqn:E;
    [contradiction|].
  assert (Hbr : In br (rows_with_id cols (normalize_nulls df_benchmark)
                         (get cols (cells e) "ID")))
    by (rewrite E; now left).
  apply in_rows_with_id in Hbr. destruct Hbr as (_ & Hid & Hnn).
  exists br, rest. split; [reflexivity|].
  destruct (changes_against cols br (cells e)) as [|c ch] eqn:Ec;
    [contradiction|].
  split; [discriminate|]. split; [exact Hsum|].
  rewrite <- Ec.
  intro Hin. apply in_changes_against in Hin. destruct Hin as [_ Hne].
  rewrite Hid in Hne. unfold py_ne in Hne.
  rewrite py_eq_refl in Hne; [discriminate|].
  intro C. rewrite C in Hnn. discriminate.
Qed.

(** X9: a summary of the single-pass variant other than the new-entry
    marker joins the fields on which the row differs from the first
    benchmark row carrying its identifier, whichever other benchmark rows
    carry it too; the list is not empty, holds schema fields only, and
    never the identifier.  A field is listed when the two cells are not the
    same value, and also when the cell of the row is a not-a-number. *)
Theorem single_pass_summary (cols : list string)
    (df_benchmark df_new : table) (e : row_dict) :
  In e (highlight_differences cols df_benchmark df_new) ->
  change_summary e <> "New Entry" ->
  exists bench_row rest,
    rows_with_id cols (normalize_nulls df_benchmark)
                 (get cols (cells e) "ID") = bench_row :: rest /\
    changes_against cols bench_row (cells e) <> [] /\
    change_summary e = join (changes_against cols bench_row (cells e)) /\
    ~ In "ID" (changes_against cols bench_row (cells e)) /\
    (forall c, In c (changes_against cols bench_row (cells e)) ->
               In c cols /\
               (get cols bench_row c <> get cols (cells e) c \/
                get cols (cells e) c = VNaN)).
Proof.
  intros He Hs.
  destruct (single_pass_compared cols df_benchmark df_new e He Hs)
    as (br & rest & Hr & Hne & Hsum & Hid).
  exists br, rest. repeat (split; [assumption|]).
  intros c0 Hin. apply in_changes_against in Hin.
  destruct Hin as [Hc Hdiff]. split; [exact Hc|].
  destruct (value_eq_dec (get cols br c0) (get cols (cells e) c0)) as [Heq|];
    [|now left].
  right. rewrite Heq in Hdiff. unfold py_ne in Hdiff.
  destruct (value_eq_dec (get cols (cells e) c0) VNaN) as [|Hn];
    [assumption|].
  rewrite (py_eq_refl _ Hn) in Hdiff. discriminate.
Qed.

Lemma single_pass_summary_witness :
  exists bench_row rest,
    rows_with_id COLUMNS (normalize_nulls mixed_benchmark) (VNum 4)
    = bench_row :: rest /\
    "Name, Age" = join (changes_against COLUMNS bench_row
                          [VNum 4; VStr "E"; VNum 51; VStr "V"]).
Proof.
  destruct (single_pass_summary COLUMNS mixed_benchmark mixed_new
              {| cells := [VNum 4; VStr "E"; VNum 51; VStr "V"];
                 change_summary := "Name, Age" |}
              ltac:(vm_compute; tauto) ltac:(discriminate))
    as (br & rest & H1 & _ & H2 & _).
  exists br, rest. split; [exact H1 | exact H2].
Defined.

(** ** The highlights of the single-pass variant *)

Lemma index_of_nth_error (name : string) (l : list string) (j : nat) :
  index_of name l = Some j -> nth_error l j = Some name.
Proof.
  revert j. induction l as [|c l IH]; simpl; intro j; [discriminate|].
  destruct (c =? name)%string eqn:E.
  - intro H. injection H as <-. apply String.eqb_eq in E. now subst.
  - destruct (index_of name l) as [k|]; simpl; [|discriminate].
    intro H. injection H as <-. simpl. now apply IH.
Qed.

Lemma single_pass_highlight_length (cols : list string)
    (change_cols : option string) :
  List.length (single_pass_highlight_row cols change_cols) = List.length cols.
Proof.
  unfold single_pass_highlight_row.
  destruct change_cols as [s|]; [|apply repeat_length].
  destruct (s =? EmptyString)%string; [apply repeat_length|].
  destruct (s =? "New Entry")%string; [apply repeat_length|].
  rewrite fold_fill_length; [apply repeat_length|].
  intros ws a. destruct (index_of a cols); [apply fill_cell_length|].
  reflexivity.
Qed.

Lemma single_pass_highlight_names (cols : list string) (s : string)
    (j : nat) :
  s <> "New Entry" -> s <> EmptyString ->
  (nth j (single_pass_highlight_row cols (Some s)) false = true <->
   exists name, In name (split s) /\ index_of name cols = Some j).
Proof.
  intros H1 H3. unfold single_pass_highlight_row.
  apply String.eqb_neq in H1, H3. rewrite H1, H3.
  rewrite (nth_fold_fill _ (names_column cols j)).
  - rewrite repeat_length, nth_repeat_false. simpl.
    rewrite andb_true_iff, existsb_exists. unfold names_column. split.
    + intros [(name & Hin & Hi) _]. exists name. split; [exact Hin|].
      destruct (index_of name cols) as [i|]; [|discriminate].
      apply Nat.eqb_eq in Hi. now subst.
    + intros (name & Hin & Hi). split.
      * exists name. split; [exact Hin|]. rewrite Hi. apply Nat.eqb_refl.
      * apply Nat.ltb_lt. eapply index_of_bound, Hi.
  - intros ws a. destruct (index_of a cols); [apply fill_cell_length|].
    reflexivity.
  - intros ws a. unfold names_column.
    destruct (index_of a cols) as [i|]; [apply nth_fill_cell|].
    simpl. now rewrite orb_false_r.
Qed.

Lemma changes_sep_free (cols : list string) (br r : row) :
  forallb sep_free cols = true ->
  forallb sep_free (changes_against cols br r) = true.
Proof.
  intro H. apply forallb_forall. intros c Hc.
  apply in_changes_against in Hc.
  rewrite forallb_forall in H. apply H. tauto.
Qed.

(** X10: the fills the single-pass variant puts on its own report, over a
    schema whose names hold no [", "] and are neither empty nor the marker.
    A row annotated as a new entry gets no fill at all.  Any other row gets
    a fill exactly on the fields that the comparison with the first
    benchmark row carrying its identifier lists; the identifier column is
    never filled. *)
Theorem single_pass_highlights (cols : list string)
    (df_benchmark df_new : table) (e : row_dict) :
  forallb sep_free cols = true ->
  ~ In "New Entry" cols -> ~ In EmptyString cols ->
  In e (highlight_differences cols df_benchmark df_new) ->
  let fills := single_pass_highlight_row cols (summary_cell e) in
  List.length fills = List.length cols /\
  (change_summary e = "New Entry" ->
   forall j, nth j fills false = false) /\
  (change_summary e <> "New Entry" ->
   exists bench_row rest,
     rows_with_id cols (normalize_nulls df_benchmark)
                  (get cols (cells e) "ID") = bench_row :: rest /\
     forall j, nth j fills false = true <->
               exists name,
                 In name (changes_against cols bench_row (cells e)) /\
                 index_of name cols = Some j) /\
  (forall j, index_of "ID" cols = Some j -> nth j fills false = false).
Proof.
  intros Hsep Hm Hem He. simpl.
  split; [apply single_pass_highlight_length|].
  assert (Hnew : change_summary e = "New Entry" ->
                 forall j, nth j (single_pass_highlight_row cols
                                    (summary_cell e)) false = false).
  { intros Hs j. unfold summary_cell. rewrite Hs. simpl.
    apply nth_repeat_false. }
  assert (Hch : change_summary e <> "New Entry" ->
            exists bench_row rest,
              rows_with_id cols (normalize_nulls df_benchmark)
                           (get cols (cells e) "ID") = bench_row :: rest /\
              ~ In "ID" (changes_against cols bench_row (cells e)) /\
              forall j,
                nth j (single_pass_highlight_row cols (summary_cell e)) false
                = true <->
                exists name,
                  In name (changes_against cols bench_row (cells e)) /\
                  index_of name cols = Some j).
  { intro Hs.
    destruct (single_pass_compared cols df_benchmark df_new e He Hs)
      as (br & rest & Hr & Hne & Hsum & Hid).
    exists br, rest. split; [exact Hr|]. split; [exact Hid|].
    assert (Hsp : split (change_summary e)
                  = changes_against cols br (cells e)).
    { rewrite Hsum. apply split_join_names; [exact Hne|].
      now apply changes_sep_free. }
    assert (Hnonempty : change_summary e <> EmptyString).
    { intro C. rewrite C in Hsp. apply Hem.
      apply (in_changes_against cols br (cells e)).
      rewrite <- Hsp. now left. }
    unfold summary_cell.
    apply String.eqb_neq in Hnonempty. rewrite Hnonempty.
    apply String.eqb_neq in Hnonempty.
    intro j. rewrite <- Hsp.
    now apply single_pass_highlight_names. }
  split; [exact Hnew|]. split.
  - intro Hs. destruct (Hch Hs) as (br & rest & H1 & _ & H2).
    exists br, rest. tauto.
  - intros j Hj.
    destruct (string_dec (change_summary e) "New Entry") as [Hs|Hs];
      [now apply Hnew|].
    destruct (Hch Hs) as (br & rest & _ & Hid & H2).
    destruct (nth j (single_pass_highlight_row cols (summary_cell e)) false)
      eqn:E; [|reflexivity].
    exfalso. apply H2 in E. destruct E as (name & Hin & Hi).
    apply index_of_nth_error in Hi, Hj. rewrite Hi in Hj.
    injection Hj as ->. now apply Hid.
Qed.

Lemma single_pass_highlights_witness :
  let e := annotate "Name, Age" [VNum 4; VStr "E"; VNum 51; VStr "V"] in
  nth 1 (single_pass_highlight_row COLUMNS (summary_cell e)) false = true /\
  nth 0 (single_pass_highlight_row COLUMNS (summary_cell e)) false = false /\
  nth 0 (single_pass_highlight_row COLUMNS_full
           (summary_cell (annotate "New Entry" full_removed_row)))
      false = false.
Proof.
  intro e.
  destruct (single_pass_highlights COLUMNS mixed_benchmark mixed_new e
              ltac:(reflexivity)
              ltac:(vm_compute; intuition discriminate)
              ltac:(vm_compute; intuition discriminate)
              ltac:(vm_compute; tauto)) as (_ & _ & Hch & Hid).
  split; [|split].
  - destruct Hch as (br & rest & Hr & Hj); [discriminate|].
    vm_compute in Hr. injection Hr as <- <-.
    apply Hj. exists "Name". split; [vm_compute; tauto | reflexivity].
  - apply Hid. reflexivity.
  - apply (proj1 (proj2
             (single_pass_highlights COLUMNS_full [full_removed_row]
                full_new_table (annotate "New Entry" full_removed_row)
                ltac:(reflexivity)
                ltac:(vm_compute; intuition discriminate)
                ltac:(vm_compute; intuition discriminate)
                ltac:(vm_compute; tauto)))).
    reflexivity.
Defined.

(** ** Nothing to report *)

(** X14: when a comparison reports nothing.  The single-pass variant
    reports nothing exactly when the two normalized tables hold the same
    rows, however often and in whatever order.  The unique table of the
    pairwise variant is empty exactly when the tables hold the same rows
    and no pair of rows is changed; two tables that hold the same rows and
    no not-a-number have no changed pair. *)
Theorem empty_report (cols : list string) (order : set_order)
    (df_benchmark df_new : table) :
  let b := normalize_nulls df_benchmark in
  let n := normalize_nulls df_new in
  let same_rows := forall r, In r b <-> In r n in
  (snd (find_duplicates_and_unique cols order df_benchmark df_new) = []
   <-> same_rows /\ spec_changed_rows cols b n = []) /\
  (nan_free n = true -> same_rows ->
   snd (find_duplicates_and_unique cols order df_benchmark df_new) = []) /\
  (highlight_differences cols df_benchmark df_new = [] <-> same_rows).
Proof.
  simpl. unfold find_duplicates_and_unique; simpl.
  set (b := normalize_nulls df_benchmark). set (n := normalize_nulls df_new).
  assert (Hone : (forall r, In r b <-> In r n) ->
                 modified_rows cols order b n = [] ->
                 unique_rows cols order b n = []).
  { intros Hs Hm. apply no_member_nil. intros e He.
    apply in_unique_rows in He. destruct He as [He|[[_ He]|[_ He]]].
    - rewrite Hm in He. exact He.
    - apply in_only_in_new in He. apply (proj2 He), Hs, He.
    - apply in_only_in_benchmark in He. apply (proj2 He), Hs, He. }
  split; [|split]; [split| |split].
  - intro Hu. split.
    + intro r.
      destruct (in_dec row_eq_dec r b) as [Hb|Hb],
               (in_dec row_eq_dec r n) as [Hn|Hn]; try tauto; exfalso.
      * assert (H : In (annotate "Removed Entry" r)
                       (unique_rows cols order b n))
          by (apply in_unique_rows; right; right; split; [reflexivity|];
              apply in_only_in_benchmark; tauto).
        rewrite Hu in H. exact H.
      * assert (H : In (annotate "New Entry" r) (unique_rows cols order b n))
          by (apply in_unique_rows; right; left; split; [reflexivity|];
              apply in_only_in_new; tauto).
        rewrite Hu in H. exact H.
    + apply no_member_nil. intros e He.
      apply (Permutation_in _
               (Permutation_sym (modified_rows_spec cols order b n))) in He.
      assert (H : In e (unique_rows cols order b n))
        by (apply in_unique_rows; now left).
      rewrite Hu in H. exact H.
  - intros [Hs Hc]. apply Hone; [exact Hs|].
    apply Permutation_nil, Permutation_sym.
    rewrite <- Hc. apply modified_rows_spec.
  - intros Hnan Hs. apply Hone; [exact Hs|].
    apply no_member_nil. intros e He.
    apply in_modified_rows in He.
    destruct He as (Hnn & br & Hb & Hn & Hd & _).
    assert (H : In (cells e) (rows_with_id cols n (get cols (cells e) "ID")))
      by (rewrite Hn; now left).
    apply in_rows_with_id in H. destruct H as [Hin _].
    assert (H : In (cells e) (rows_with_id cols b (get cols (cells e) "ID")))
      by (apply in_rows_with_id; split; [apply Hs, Hin | tauto]).
    rewrite Hb in H. destruct H as [->|[]].
    apply Hd, field_diff_same. intro col.
    now apply (nan_free_get cols n).
  - intros Hu r.
    destruct (in_dec row_eq_dec r b) as [Hb|Hb],
             (in_dec row_eq_dec r n) as [Hn|Hn]; try tauto; exfalso.
    + assert (H : In (annotate (summary_of cols b r) r)
                     (highlight_differences cols df_benchmark df_new))
        by (apply in_single_pass; simpl; tauto).
      rewrite Hu in H. exact H.
    + assert (H : In (annotate (summary_of cols b r) r)
                     (highlight_differences cols df_benchmark df_new))
        by (apply in_single_pass; simpl; tauto).
      rewrite Hu in H. exact H.
  - intro Hs. apply no_member_nil. intros e He.
    apply in_single_pass in He. destruct He as [_ [[H1 H2]|[H1 H2]]];
      apply H2, Hs, H1.
Qed.

Lemma empty_report_witness :
  snd (find_duplicates_and_unique COLUMNS insertion_order
         scenario_aged_benchmark scenario_aged_benchmark) = [].
Proof.
  apply (proj1 (proj2 (empty_report COLUMNS insertion_order
                         scenario_aged_benchmark scenario_aged_benchmark))).
  - reflexivity.
  - intro r. reflexivity.
Defined.
